(** * go-pocket-sdk: the Pocket API client, embedded and verified

  A shallow embedding of [pocket.go] (package [pocket]) together with the
  parts of the Go standard library and of [github.com/pkg/errors] that the
  package calls.  Go strings are byte strings and are modelled by [string]
  (one [ascii] per byte); Go maps are modelled by [gmap]; a Go function that
  returns [(T, error)] returns a pair whose second component is an
  [option error], with [None] for [nil]. *)

From Stdlib Require Import ZArith Ascii String List Lia.
From Equations Require Import Equations.
From stdpp Require Import base gmap strings list option.

Local Open Scope Z_scope.
Local Open Scope list_scope.
Local Open Scope stdpp_scope.

(* ===================================================================== *)
(** ** Package [strings] *)
(* ===================================================================== *)

Module str.

(** The loop of [strings.Join] for two or more elements: every element
    after the first is written to the builder preceded by [sep]. *)
Fixpoint writeRest (b : string) (sep : string) (elems : list string) : string :=
  match elems with
  | [] => b
  | s :: rest => writeRest (b +:+ sep +:+ s) sep rest
  end.

(** [strings.Join(elems, sep)]: a [switch] on [len(elems)] handles 0 and 1
    without a builder; otherwise the first element is written and the loop
    follows. *)
Definition Join (elems : list string) (sep : string) : string :=
  match elems with
  | [] => ""
  | [e] => e
  | e :: rest => writeRest e sep rest
  end.

(** [strings.Cut(s, sep)] for a one-byte separator: the text before the
    first [sep], the text after it, and whether [sep] was found.  Without
    a separator the result is [(s, "", false)]. *)
Fixpoint Cut (s : string) (sep : ascii) : string * string * bool :=
  match s with
  | EmptyString => (EmptyString, EmptyString, false)
  | String c rest =>
      if Ascii.eqb c sep then (EmptyString, rest, true)
      else let '(before, after, found) := Cut rest sep in
           (String c before, after, found)
  end.

(** [strings.Contains(s, substr)] for a one-byte [substr]. *)
Fixpoint Contains (s : string) (c : ascii) : bool :=
  match s with
  | EmptyString => false
  | String d rest => Ascii.eqb d c || Contains rest c
  end.

End str.

(* ===================================================================== *)
(** ** Package [fmt] *)
(* ===================================================================== *)

Module fmt.

(** What [Sprintf] appends when operands are left over at the end of the
    format: [%!(EXTRA string=a, string=b)]. *)
Definition extra (a : list string) : string :=
  match a with
  | [] => ""
  | _ => "%!(EXTRA " +:+ str.Join (map (fun x => "string=" +:+ x) a) ", " +:+ ")"
  end.

(** [fmt.Sprintf] on string operands.  Verbs [%s] and [%v] write the
    operand's bytes as they are, [%%] writes a percent sign, every other
    byte of the format is copied.  The package only formats with [%s]; a
    verb outside [s], [v], [%] is rendered here as fmt renders a verb that
    does not apply to its operand. *)
Fixpoint Sprintf (format : string) (a : list string) : string :=
  match format with
  | EmptyString => extra a
  | String c rest =>
      if Ascii.eqb c "%" then
        match rest with
        | EmptyString => "%!(NOVERB)"
        | String v rest' =>
            if Ascii.eqb v "%" then String "%" (Sprintf rest' a)
            else
              match a with
              | [] => "%!" +:+ String v "(MISSING)" +:+ Sprintf rest' []
              | x :: a' =>
                  if Ascii.eqb v "s" || Ascii.eqb v "v"
                  then x +:+ Sprintf rest' a'
                  else "%!" +:+ String v "(string=" +:+ x +:+ ")" +:+ Sprintf rest' a'
              end
        end
      else String c (Sprintf rest a)
  end.

End fmt.

(* ===================================================================== *)
(** ** Package [unicode/utf8] *)
(* ===================================================================== *)

Module utf8.

Definition inRange (lo hi : N) (c : ascii) : bool :=
  let n := N_of_ascii c in ((lo <=? n) && (n <=? hi))%N.

(** A continuation byte, 0x80 to 0xBF. *)
Definition cont (c : ascii) : bool := inRange 128 191 c.

(** The well-formed sequences of two, three and four bytes: the lead byte
    fixes the length and the range of the second byte (no overlong form,
    no surrogate, nothing above U+10FFFF). *)
Definition is2 (b0 b1 : ascii) : bool := inRange 194 223 b0 && cont b1.

Definition is3 (b0 b1 b2 : ascii) : bool :=
  (inRange 224 224 b0 && inRange 160 191 b1
   || inRange 225 236 b0 && cont b1
   || inRange 237 237 b0 && inRange 128 159 b1
   || inRange 238 239 b0 && cont b1) && cont b2.

Definition is4 (b0 b1 b2 b3 : ascii) : bool :=
  (inRange 240 240 b0 && inRange 144 191 b1
   || inRange 241 243 b0 && cont b1
   || inRange 244 244 b0 && inRange 128 143 b1) && cont b2 && cont b3.

Definition low (bits : N) (c : ascii) : N := N.land (N_of_ascii c) (N.ones bits).

(** What [utf8.DecodeRuneInString] finds at the head of a string: a rune
    with the bytes that encode it, or a byte that begins no well-formed
    sequence (the decoder then reports [RuneError] with width 1). *)
Inductive Rune : Type :=
| Valid (r : N) (bytes : string)
| Invalid (b : ascii).

(** A string cut into what the decoder finds, from left to right. *)
Fixpoint runes (s : string) : list Rune :=
  match s with
  | EmptyString => []
  | String b0 r0 =>
      if (N_of_ascii b0 <? 128)%N then
        Valid (N_of_ascii b0) (String b0 EmptyString) :: runes r0
      else
        match r0 with
        | String b1 r1 =>
            if is2 b0 b1 then
              Valid (N.lor (N.shiftl (low 5 b0) 6) (low 6 b1))
                    (String b0 (String b1 EmptyString)) :: runes r1
            else
              match r1 with
              | String b2 r2 =>
                  if is3 b0 b1 b2 then
                    Valid (N.lor (N.shiftl (low 4 b0) 12)
                             (N.lor (N.shiftl (low 6 b1) 6) (low 6 b2)))
                          (String b0 (String b1 (String b2 EmptyString))) :: runes r2
                  else
                    match r2 with
                    | String b3 r3 =>
                        if is4 b0 b1 b2 b3 then
                          Valid (N.lor (N.shiftl (low 3 b0) 18)
                                   (N.lor (N.shiftl (low 6 b1) 12)
                                      (N.lor (N.shiftl (low 6 b2) 6) (low 6 b3))))
                                (String b0 (String b1 (String b2 (String b3 EmptyString))))
                            :: runes r3
                        else Invalid b0 :: runes r0
                    | EmptyString => Invalid b0 :: runes r0
                    end
              | EmptyString => Invalid b0 :: runes r0
              end
        | EmptyString => Invalid b0 :: runes r0
        end
  end.

Definition isValid (x : Rune) : bool :=
  match x with Valid _ _ => true | Invalid _ => false end.

(** [utf8.ValidString]: every byte belongs to a well-formed sequence. *)
Definition ValidString (s : string) : bool := forallb isValid (runes s).

(** U+FFFD, the replacement character, in UTF-8: EF BF BD. *)
Definition replacement : string :=
  String (ascii_of_N 239) (String (ascii_of_N 191) (String (ascii_of_N 189) EmptyString)).

End utf8.

(* ===================================================================== *)
(** ** Errors: [github.com/pkg/errors] and the standard library's *)
(* ===================================================================== *)

Module errors.

(** The error values that flow through the package.  [errorString] is what
    [errors.New] builds; [withMessage] is what [errors.WithMessage] wraps
    around a cause; [EscapeError] is [net/url]'s error for a malformed
    percent escape. *)
Inductive error : Type :=
| errorString (msg : string)
| EscapeError (s : string)
| withMessage (cause : error) (msg : string).

Definition New (msg : string) : error := errorString msg.

(** [errors.WithMessage(err, message)]: [nil] stays [nil]. *)
Definition WithMessage (err : option error) (message : string) : option error :=
  match err with
  | None => None
  | Some e => Some (withMessage e message)
  end.

Definition hexdigit (n : N) : ascii :=
  match n with
  | 10%N => "a" | 11%N => "b" | 12%N => "c"
  | 13%N => "d" | 14%N => "e" | 15%N => "f"
  | _ => ascii_of_N (48 + n)
  end%char.

(** The double quote byte, 0x22. *)
Definition dquote : ascii := ascii_of_N 34.

(** One byte inside [strconv.Quote]'s output, for a byte that is a rune
    of its own or that begins no well-formed sequence.  Printable ASCII is
    copied, the quote and the backslash are escaped, control bytes take
    their short escape or [\xHH], and so does a byte from 0x80 up. *)
Definition quoteByte (c : ascii) : string :=
  let n := N_of_ascii c in
  if Ascii.eqb c dquote then String "\" (String dquote EmptyString)
  else if Ascii.eqb c "\" then "\\"
  else if ((32 <=? n) && (n <? 127))%N then String c ""
  else match n with
       | 7%N => "\a" | 8%N => "\b" | 12%N => "\f" | 10%N => "\n"
       | 13%N => "\r" | 9%N => "\t" | 11%N => "\v"
       | _ => "\x" +:+ String (hexdigit (n / 16)) (String (hexdigit (n mod 16)) "")
       end.

Definition hex4 (r : N) : string :=
  String (hexdigit (r / 4096 mod 16)) (String (hexdigit (r / 256 mod 16))
    (String (hexdigit (r / 16 mod 16)) (String (hexdigit (r mod 16)) EmptyString))).

(** [strconv.IsPrint] below U+0800 (Unicode 15, Go 1.21 and later): the
    letters, marks, numbers, punctuation and symbols, and the ASCII space.
    Runes from U+0800 up are taken as printable; none reaches [Quote] from
    the query parser, whose [EscapeError] holds a percent sign and at most
    two more bytes. *)
Definition isPrint (r : N) : bool :=
  (if r <=? 255 then
     (32 <=? r) && (r <=? 126) || (161 <=? r) && negb (r =? 173)
   else if r <? 2048 then
     ((r <=? 0x377) || (0x37a <=? r) && (r <=? 0x37f)
      || (0x384 <=? r) && (r <=? 0x556) || (0x559 <=? r) && (r <=? 0x58a)
      || (0x58d <=? r) && (r <=? 0x5c7) || (0x5d0 <=? r) && (r <=? 0x5ea)
      || (0x5ef <=? r) && (r <=? 0x5f4) || (0x606 <=? r) && (r <=? 0x70d)
      || (0x710 <=? r) && (r <=? 0x74a) || (0x74d <=? r) && (r <=? 0x7b1)
      || (0x7c0 <=? r) && (r <=? 0x7fa) || (0x7fd <=? r))
     && negb ((r =? 0x38b) || (r =? 0x38d) || (r =? 0x3a2) || (r =? 0x530)
              || (r =? 0x590) || (r =? 0x61c) || (r =? 0x6dd))
   else true)%N.

(** One rune inside [strconv.Quote]'s output.  A byte that begins no
    well-formed sequence is written [\xHH]; a rune of one byte goes through
    [quoteByte]; a longer rune is copied when printable and written
    [\uHHHH] when not. *)
Definition quoteRune (x : utf8.Rune) : string :=
  match x with
  | utf8.Invalid b => quoteByte b
  | utf8.Valid r bytes =>
      if (r <? 128)%N then quoteByte (ascii_of_N r)
      else if isPrint r then bytes
      else if (r <? 65536)%N then "\u" +:+ hex4 r
      else "\U" +:+ hex4 (r / 65536) +:+ hex4 (r mod 65536)
  end.

Fixpoint quoteRunes (l : list utf8.Rune) : string :=
  match l with
  | [] => EmptyString
  | x :: rest => quoteRune x +:+ quoteRunes rest
  end.

Definition Quote (s : string) : string :=
  String dquote (quoteRunes (utf8.runes s)) +:+ String dquote EmptyString.

(** The [Error()] method: the text of an error. *)
Fixpoint Error (e : error) : string :=
  match e with
  | errorString msg => msg
  | EscapeError s => "invalid URL escape " +:+ Quote s
  | withMessage cause msg => msg +:+ ": " +:+ Error cause
  end.

End errors.

Export errors (error).

(* ===================================================================== *)
(** ** Package [encoding/json] *)
(* ===================================================================== *)

Module json.

(** A marshalled document.  The package only marshals flat structs of
    strings, so a document is an object whose members, in the order they
    are written, are pairs of a key and the string the member denotes; how
    the encoder spells that string (which characters it writes as escapes)
    is not used by any property of the package. *)
Inductive Value : Type :=
| Object (members : list (string * string)).

(** One field of a struct as reflection shows it to the encoder: the Go
    name, the text of the [json] key of its struct tag (for
    [`json:"title, omitempty"`] the text [title, omitempty]; no key gives
    the empty text) and the string it holds. *)
Record StructField : Type := mkField {
  Name : string;
  Tag : string;
  Val : string
}.

(** A struct type that can be handed to [json.Marshal]. *)
Class Struct (A : Type) := structFields : A -> list StructField.

(** [parseTag]: the name before the first comma, the options after it. *)
Definition parseTag (tag : string) : string * string :=
  let '(name, opt, _) := str.Cut tag "," in (name, opt).

(** [tagOptions.Contains]: the options are cut at commas and each piece
    is compared, byte for byte, with [optionName]. *)
Equations? Contains (o : string) (optionName : string) : bool
  by wf (String.length o) lt :=
  Contains EmptyString _ := false;
  Contains (String c o') optionName :=
    if String.eqb (str.Cut (String c o') ",").1.1 optionName then true
    else Contains (str.Cut (String c o') ",").1.2 optionName.
Proof.
  cbn [str.Cut]. destruct (Ascii.eqb c ","); [cbn; lia|].
  assert (Hle : forall s, (String.length (str.Cut s ",").1.2 <= String.length s)%nat).
  { clear. induction s as [|d s IH]; cbn; [lia|].
    destruct (Ascii.eqb d ","); cbn; [lia|].
    destruct (str.Cut s ",") as [[b a] f]; cbn in *; lia. }
  specialize (Hle o'). destruct (str.Cut o' ",") as [[b a] f]; cbn in *; lia.
Qed.

Definition isLetterOrDigit (c : ascii) : bool :=
  let n := N_of_ascii c in
  (((48 <=? n) && (n <=? 57)) || ((65 <=? n) && (n <=? 90))
   || ((97 <=? n) && (n <=? 122)))%N.

(** [isValidTag]: a key name is non-empty and made of letters, digits and
    the punctuation listed; the backslash and the quotes are reserved.
    Bytes from 0x80 up are not accepted here (the package's tags are
    ASCII). *)
Definition isValidTag (s : string) : bool :=
  negb (String.eqb s "") &&
  forallb (fun c => str.Contains "!#$%&()*+-./:;<=>?@[]^_{|}~ " c || isLetterOrDigit c)
          (list_ascii_of_string s).

(** The string a member holds for a Go string: the encoder writes the
    string rune by rune and, for every byte that begins no well-formed
    UTF-8 sequence, writes U+FFFD in its place. *)
Fixpoint coerceRunes (l : list utf8.Rune) : string :=
  match l with
  | [] => EmptyString
  | utf8.Valid _ bytes :: rest => bytes +:+ coerceRunes rest
  | utf8.Invalid _ :: rest => utf8.replacement +:+ coerceRunes rest
  end.

Definition coerce (s : string) : string := coerceRunes (utf8.runes s).

(** The member key chosen for a field: the tag's name when it is a valid
    one, else the Go name. *)
Definition fieldName (f : StructField) : string :=
  let name := (parseTag (Tag f)).1 in
  if isValidTag name then name else Name f.

Definition omitEmpty (f : StructField) : bool :=
  Contains (parseTag (Tag f)).2 "omitempty".

(** The encoder's walk over the fields: a field tagged [-] is skipped, a
    field with the [omitempty] option is skipped when it holds the empty
    string, every other field becomes a member that holds the field's
    string as the encoder writes it. *)
Fixpoint encodeFields (fs : list StructField) : list (string * string) :=
  match fs with
  | [] => []
  | f :: rest =>
      if String.eqb (Tag f) "-" then encodeFields rest
      else if omitEmpty f && String.eqb (Val f) "" then encodeFields rest
      else (fieldName f, coerce (Val f)) :: encodeFields rest
  end.

(** [json.Marshal] of a struct of strings; it has no failing case. *)
Definition Marshal {A} `{Struct A} (v : A) : Value * option error :=
  (Object (encodeFields (structFields v)), None).

Definition members (v : Value) : list (string * string) :=
  match v with Object ms => ms end.

(** The value of member [key] of an object, if it has one. *)
Definition member (key : string) (v : Value) : option string :=
  snd <$> List.find (fun kv => String.eqb kv.1 key) (members v).

End json.

(* ===================================================================== *)
(** ** Package [net/url] *)
(* ===================================================================== *)

Module url.

(** [url.Values] is [map[string][]string]. *)
Abbreviation Values := (gmap string (list string)).

(** [Values.Get]: the first value stored under [key], or the empty
    string when there is none. *)
Definition Get (v : Values) (key : string) : string :=
  match v !! key with
  | Some (x :: _) => x
  | _ => ""
  end.

Definition ishex (c : ascii) : bool :=
  let n := N_of_ascii c in
  (((48 <=? n) && (n <=? 57)) || ((97 <=? n) && (n <=? 102))
   || ((65 <=? n) && (n <=? 70)))%N.

Definition unhex (c : ascii) : N :=
  let n := N_of_ascii c in
  (if (48 <=? n) && (n <=? 57) then n - 48
   else if (97 <=? n) && (n <=? 102) then n - 97 + 10
   else if (65 <=? n) && (n <=? 70) then n - 65 + 10
   else 0)%N.

(** [s[:3]] when [s] is longer than three bytes, else [s]. *)
Definition first3 (s : string) : string := String.substring 0 3 s.

(** First loop of [unescape] in query-component mode: every percent sign
    must be followed by two hex digits; the first one that is not makes
    the error, which quotes up to three bytes from the percent sign on.
    The result is the number of escapes and whether a plus was seen. *)
Fixpoint scan (s : string) (n : nat) (hasPlus : bool) : (nat * bool) + error :=
  match s with
  | EmptyString => inl (n, hasPlus)
  | String c rest =>
      if Ascii.eqb c "%" then
        match rest with
        | String a (String b rest') =>
            if ishex a && ishex b then scan rest' (S n) hasPlus
            else inr (errors.EscapeError (first3 s))
        | _ => inr (errors.EscapeError (first3 s))
        end
      else if Ascii.eqb c "+" then scan rest n true
      else scan rest n hasPlus
  end.

(** Second loop of [unescape]: an escape becomes the byte it names, a
    plus becomes a space. *)
Fixpoint decode (s : string) : string :=
  match s with
  | EmptyString => EmptyString
  | String c rest =>
      if Ascii.eqb c "%" then
        match rest with
        | String a (String b rest') =>
            String (ascii_of_N (N.lor (N.shiftl (unhex a) 4) (unhex b))) (decode rest')
        | _ => EmptyString
        end
      else if Ascii.eqb c "+" then String " " (decode rest)
      else String c (decode rest)
  end.

(** [url.QueryUnescape] *)
Definition QueryUnescape (s : string) : string * option error :=
  match scan s 0 false with
  | inr e => ("", Some e)
  | inl (n, hasPlus) =>
      if (n =? 0)%nat && negb hasPlus then (s, None) else (decode s, None)
  end.

Definition upperhex (n : N) : ascii :=
  match n with
  | 10%N => "A" | 11%N => "B" | 12%N => "C"
  | 13%N => "D" | 14%N => "E" | 15%N => "F"
  | _ => ascii_of_N (48 + n)
  end%char.

(** [shouldEscape] in query-component mode: everything but the letters,
    the digits and the four marks [-], [_], [.], [~]. *)
Definition shouldEscape (c : ascii) : bool :=
  let n := N_of_ascii c in
  negb ((((48 <=? n) && (n <=? 57)) || ((65 <=? n) && (n <=? 90))
         || ((97 <=? n) && (n <=? 122)))%N
        || str.Contains "-_.~" c).

(** What [url.QueryEscape] writes for one byte: the byte, a plus for a
    space, or a percent sign and two upper-case hex digits. *)
Definition escapeByte (c : ascii) : string :=
  if shouldEscape c then
    if Ascii.eqb c " " then "+"
    else String "%" (String (upperhex (N_of_ascii c / 16))
                       (String (upperhex (N_of_ascii c mod 16)) EmptyString))
  else String c EmptyString.

(** [url.QueryEscape]: how a server writes a value into a URL-encoded
    form. *)
Fixpoint QueryEscape (s : string) : string :=
  match s with
  | EmptyString => EmptyString
  | String c rest => escapeByte c +:+ QueryEscape rest
  end.

(** [m[key] = append(m[key], value)] *)
Definition add (m : Values) (key value : string) : Values :=
  <[key := default [] (m !! key) ++ [value]]> m.

(** What one pass of [parseQuery]'s loop does with the piece [key] that
    it cut off at an ampersand: the map and the error after the pass.  A
    semicolon in the piece is an error (Go 1.17 and later), an empty piece
    is skipped, an undecodable key or value is an error that is kept only
    if it is the first. *)
Definition parsePair (m : Values) (err : option error) (key : string)
  : Values * option error :=
  if str.Contains key ";" then
    (m, Some (errors.errorString "invalid semicolon separator in query"))
  else if String.eqb key "" then (m, err)
  else
    let '(key, value, _) := str.Cut key "=" in
    match QueryUnescape key with
    | (_, Some err1) => (m, if err is None then Some err1 else err)
    | (key, None) =>
        match QueryUnescape value with
        | (_, Some err1) => (m, if err is None then Some err1 else err)
        | (value, None) => (add m key value, err)
        end
    end.

(** [parseQuery]: while the query is not empty, cut it at the next
    ampersand and handle the piece; the first error is remembered and the
    remaining pieces are still parsed. *)
Equations? parseQuery (m : Values) (err : option error) (query : string)
  : Values * option error by wf (String.length query) lt :=
  parseQuery m err EmptyString := (m, err);
  parseQuery m err (String c q) :=
    let r := parsePair m err (str.Cut (String c q) "&").1.1 in
    parseQuery r.1 r.2 (str.Cut (String c q) "&").1.2.
Proof.
  cbn [str.Cut]. destruct (Ascii.eqb c "&"); [cbn; lia|].
  assert (Hle : forall s, (String.length (str.Cut s "&").1.2 <= String.length s)%nat).
  { clear. induction s as [|d s IH]; cbn; [lia|].
    destruct (Ascii.eqb d "&"); cbn; [lia|].
    destruct (str.Cut s "&") as [[b a] f]; cbn in *; lia. }
  specialize (Hle q). destruct (str.Cut q "&") as [[b a] f]; cbn in *; lia.
Qed.

(** [url.ParseQuery]: the map holds every pair that could be decoded,
    the error is the first decoding error met (or the complaint about a
    semicolon). *)
Definition ParseQuery (query : string) : Values * option error :=
  parseQuery ∅ None query.

End url.

(* ===================================================================== *)
(** ** Packages [context], [net/http] and [io/ioutil] *)
(* ===================================================================== *)

Module http.

(** A [context.Context] as the package sees it: the package never looks
    inside a context, it only hands it to [http.NewRequestWithContext],
    which refuses the nil interface value.  A context that is not nil
    carries its optional deadline and whether it is already cancelled, for
    the transport to act on. *)
Inductive Context : Type :=
| nilContext
| ctx (deadline : option Z) (cancelled : bool).

(** [context.Background()] *)
Definition Background : Context := ctx None false.

(** [http.Header] is [map[string][]string]. *)
Abbreviation Header := (gmap string (list string)).

Definition isLower (c : ascii) : bool :=
  let n := N_of_ascii c in ((97 <=? n) && (n <=? 122))%N.
Definition isUpper (c : ascii) : bool :=
  let n := N_of_ascii c in ((65 <=? n) && (n <=? 90))%N.
Definition isDigit (c : ascii) : bool :=
  let n := N_of_ascii c in ((48 <=? n) && (n <=? 57))%N.

(** [validHeaderFieldByte]: the bytes of an RFC 7230 token. *)
Definition validHeaderFieldByte (c : ascii) : bool :=
  isLower c || isUpper c || isDigit c || str.Contains "!#$%&'*+-.^_`|~" c.

(** The rewriting loop of [canonicalMIMEHeaderKey]: the first letter and
    every letter after a dash in upper case, the other letters in lower
    case. *)
Fixpoint canon (upper : bool) (s : string) : string :=
  match s with
  | EmptyString => EmptyString
  | String c rest =>
      let c' :=
        if upper && isLower c then ascii_of_N (N_of_ascii c - 32)
        else if negb upper && isUpper c then ascii_of_N (N_of_ascii c + 32)
        else c in
      String c' (canon (Ascii.eqb c' "-") rest)
  end.

(** [textproto.CanonicalMIMEHeaderKey]: a key with a byte outside the
    token bytes is returned as it is. *)
Definition CanonicalMIMEHeaderKey (s : string) : string :=
  if forallb validHeaderFieldByte (list_ascii_of_string s) then canon true s else s.

(** [Header.Get]: the first value under the canonical form of [key]. *)
Definition Get (h : Header) (key : string) : string :=
  match h !! CanonicalMIMEHeaderKey key with
  | Some (v :: _) => v
  | _ => ""
  end.

(** [Header.Set]: the canonical form of [key] now holds the one [value]. *)
Definition Set_ (h : Header) (key value : string) : Header :=
  <[CanonicalMIMEHeaderKey key := [value]]> h.

Definition MethodPost : string := "POST".
Definition StatusOK : Z := 200.

(** [*http.Request]: what the package sets of it. *)
Module Request.
Record t : Type := mk {
  Method : string;
  URL : string;
  Header : http.Header;
  Body : json.Value;
  Ctx : Context
}.
End Request.

(** A response body: the bytes a reader gets out of it until it ends or
    fails, and the error it fails with, if it does. *)
Record ReadCloser : Type := mkBody {
  content : string;
  readErr : option error
}.

(** [ioutil.NopCloser(strings.NewReader(body))] *)
Definition NewReader (body : string) : ReadCloser := mkBody body None.

(** [*http.Response]: what the package reads of it. *)
Module Response.
Record t : Type := mk {
  StatusCode : Z;
  Header : http.Header;
  Body : ReadCloser
}.
End Response.

(** [*http.Client].  [Transport] stands for the whole exchange behind
    [Client.Do]: the response the caller gets for a request, or the error
    (network failure, cancelled context, timeout). *)
Record Client : Type := mkClient {
  Transport : Request.t -> Response.t + error;
  Timeout : Z
}.

(** What a call does to the outside world, in the order it does it. *)
Inductive Event : Type :=
| EvNewRequest (req : Request.t)
| EvDo (req : Request.t)
| EvReadAll (body : ReadCloser)
| EvClose (body : ReadCloser).

(** A computation with effects: it extends the log of events. *)
Definition IO (A : Type) : Type := list Event -> A * list Event.

#[global] Instance IO_ret : MRet IO := fun A a tr => (a, tr).
#[global] Instance IO_bind : MBind IO :=
  fun A B f m tr => let '(a, tr') := m tr in f a tr'.

Definition emit (e : Event) : IO unit := fun tr => (tt, tr ++ [e]).

(** Run a computation from an empty log. *)
Definition run {A} (m : IO A) : A * list Event := m [].

(** [defer cleanup]: [cleanup] runs when the rest of the function is done,
    whatever it returns. *)
Definition defer {A} (cleanup : IO unit) (rest : IO A) : IO A :=
  r ← rest; _ ← cleanup; mret r.

(** [http.NewRequestWithContext].  It fails on a nil context.  (It also
    fails on a method or a URL that is not well formed; the package calls
    it with [POST] and with [host] followed by one of its endpoint
    constants, which are.) *)
Definition NewRequestWithContext (c : Context) (method url : string) (body : json.Value)
  : IO (Request.t + error) :=
  match c with
  | nilContext => mret (inr (errors.errorString "net/http: nil Context"))
  | _ =>
      let req := Request.mk method url ∅ body c in
      _ ← emit (EvNewRequest req); mret (inl req)
  end.

(** [req.Header.Set(key, value)] *)
Definition SetHeader (req : Request.t) (key value : string) : Request.t :=
  Request.mk (Request.Method req) (Request.URL req)
             (Set_ (Request.Header req) key value)
             (Request.Body req) (Request.Ctx req).

(** [Client.Do] *)
Definition Do (c : Client) (req : Request.t) : IO (Response.t + error) :=
  _ ← emit (EvDo req); mret (Transport c req).

(** [Body.Close()] *)
Definition Close (b : ReadCloser) : IO unit := emit (EvClose b).

(** [ioutil.ReadAll]: everything that could be read, and the error that
    stopped the reading if one did. *)
Definition ReadAll (b : ReadCloser) : IO (string * option error) :=
  _ ← emit (EvReadAll b); mret (content b, readErr b).

End http.

Export http (Context, IO).

(* ===================================================================== *)
(** ** Package [pocket] *)
(* ===================================================================== *)

Module pocket.

Definition host : string := "https://getpocket.com/v3".
Definition authorizeUrl : string :=
  "https://getpocket.com/auth/authorize?request_token=%s&redirect_uri=%s".

Definition endpointAdd : string := "/add".
Definition endpointRequestToken : string := "/oauth/request".
Definition endpointAuthorize : string := "/oauth/authorize".

(** [xErrorHeader] used to parse error from headers on non-2XX responses *)
Definition xErrorHeader : string := "X-Error".

(** [5 * time.Second], in nanoseconds *)
Definition defaultTimeout : Z := 5 * 1000000000.

Module requestTokenRequest.
Record t : Type := mk {
  ConsumerKey : string;
  RedirectUrl : string
}.
End requestTokenRequest.

Module authorizeRequest.
Record t : Type := mk {
  ConsumerKey : string;
  Code : string
}.
End authorizeRequest.

Module AuthorizeResponse.
Record t : Type := mk {
  Access_token : string;
  Username : string
}.
End AuthorizeResponse.

Module addRequest.
Record t : Type := mk {
  URL : string;
  Title : string;
  Tags : string;
  AccessToken : string;
  ConsumerKey : string
}.
End addRequest.

(** [AddInput] holds data necessary to create new item in Pocket list *)
Module AddInput.
Record t : Type := mk {
  URL : string;
  Title : string;
  Tags : list string;
  AccessToken : string
}.
End AddInput.

(** The struct tags, as written in the type declarations. *)
#[global] Instance requestTokenRequest_fields : json.Struct requestTokenRequest.t :=
  fun r =>
    [ json.mkField "ConsumerKey" "consumer_key" (requestTokenRequest.ConsumerKey r);
      json.mkField "RedirectUrl" "redirect_uri" (requestTokenRequest.RedirectUrl r) ].

#[global] Instance authorizeRequest_fields : json.Struct authorizeRequest.t :=
  fun r =>
    [ json.mkField "ConsumerKey" "consumer_key" (authorizeRequest.ConsumerKey r);
      json.mkField "Code" "code" (authorizeRequest.Code r) ].

#[global] Instance addRequest_fields : json.Struct addRequest.t :=
  fun r =>
    [ json.mkField "URL" "url" (addRequest.URL r);
      json.mkField "Title" "title, omitempty" (addRequest.Title r);
      json.mkField "Tags" "tags, omitempty" (addRequest.Tags r);
      json.mkField "AccessToken" "access_token" (addRequest.AccessToken r);
      json.mkField "ConsumerKey" "consumer_key" (addRequest.ConsumerKey r) ].

Definition validate (i : AddInput.t) : option error :=
  if String.eqb (AddInput.URL i) "" then
    Some (errors.New "required URL is empty")
  else if String.eqb (AddInput.AccessToken i) "" then
    Some (errors.New "access token is empty")
  else None.

Definition generateRequest (i : AddInput.t) (consumerKey : string) : addRequest.t :=
  {| addRequest.URL := AddInput.URL i;
     addRequest.Tags := str.Join (AddInput.Tags i) ",";
     addRequest.Title := AddInput.Title i;
     addRequest.AccessToken := AddInput.AccessToken i;
     addRequest.ConsumerKey := consumerKey |}.

(** [Client] is a getpocket API client *)
Record Client : Type := mkClient {
  client : http.Client;
  consumerKey : string
}.

(** [NewClient] creates a new client instance with your app key.  The
    transport is the one the program runs on; the code leaves it to the
    default. *)
Definition NewClient (transport : http.Request.t -> http.Response.t + error)
  (consumerKey : string) : Client + error :=
  if String.eqb consumerKey "" then inr (errors.New "consumer key is empty")
  else inl {| client := http.mkClient transport defaultTimeout;
              consumerKey := consumerKey |}.

Definition doHTTP {A} `{json.Struct A} (c : Client) (ctx : Context)
  (endpoint : string) (body : A) : IO (url.Values * option error) :=
  let '(b, err) := json.Marshal body in
  if err is Some _ then
    mret (∅, errors.WithMessage err "failed with marshal json")
  else
  r ← http.NewRequestWithContext ctx http.MethodPost (host +:+ endpoint) b;
  match r with
  | inr err => mret (∅, errors.WithMessage (Some err) "failed to send http request")
  | inl req =>
  let req := http.SetHeader req "Content-type" "application/json; charset=UTF8" in
  r ← http.Do (client c) req;
  match r with
  | inr err => mret (∅, errors.WithMessage (Some err) "failed to send message request")
  | inl resp =>
  http.defer (http.Close (http.Response.Body resp)) (
  if negb (http.Response.StatusCode resp =? http.StatusOK) then
    let err := fmt.Sprintf "API Error: %s" [http.Get (http.Response.Header resp) xErrorHeader] in
    mret (∅, Some (errors.New err))
  else
  '(respB, err) ← http.ReadAll (http.Response.Body resp);
  if err is Some _ then
    mret (∅, errors.WithMessage err "failed to read response body")
  else
  let '(values, err) := url.ParseQuery respB in
  if err is Some _ then
    mret (∅, errors.WithMessage err "failed to parse response body")
  else
  mret (values, None))
  end end.

(** [GetRequestToken] obtains the request token that is used to authorize
    user in your application *)
Definition GetRequestToken (c : Client) (ctx : Context) (redirectUrl : string)
  : IO (string * option error) :=
  let inp := {| requestTokenRequest.ConsumerKey := consumerKey c;
                requestTokenRequest.RedirectUrl := redirectUrl |} in
  '(values, err) ← doHTTP c ctx endpointRequestToken inp;
  if err is Some _ then mret ("", err)
  else if String.eqb (url.Get values "code") "" then
    mret ("", Some (errors.New "empty request token in API response"))
  else mret (url.Get values "code", None).

Definition GetAuthorizationURL (c : Client) (requestToken redirectUrl : string)
  : string * option error :=
  if String.eqb requestToken "" || String.eqb redirectUrl "" then
    ("", Some (errors.New "empty request token"))
  else (fmt.Sprintf authorizeUrl [requestToken; redirectUrl], None).

Definition Authorize (c : Client) (ctx : Context) (requestToken : string)
  : IO (option AuthorizeResponse.t * option error) :=
  if String.eqb requestToken "" then
    mret (None, Some (errors.New "empty request token"))
  else
  let inp := {| authorizeRequest.Code := requestToken;
                authorizeRequest.ConsumerKey := consumerKey c |} in
  '(values, err) ← doHTTP c ctx endpointAuthorize inp;
  if err is Some _ then mret (None, err)
  else
  let '(accessToken, username) :=
    (url.Get values "access_token", url.Get values "username") in
  if String.eqb accessToken "" then
    mret (None, Some (errors.New "empty access token in API response"))
  else
  mret (Some {| AuthorizeResponse.Access_token := accessToken;
                AuthorizeResponse.Username := username |}, None).

(** [Add] creates new item in Pocket list *)
Definition Add (c : Client) (ctx : Context) (input : AddInput.t) : IO (option error) :=
  if validate input is Some err then mret (Some err)
  else
  let req := generateRequest input (consumerKey c) in
  '(_, err) ← doHTTP c ctx endpointAdd req;
  mret err.

End pocket.

Import pocket.

(* ===================================================================== *)
(** ** Vocabulary of the statements *)
(* ===================================================================== *)

(** The request [doHTTP] hands to the client: a POST to [host] followed by
    the endpoint, carrying the marshalled body, with its content type set. *)
Definition builtRequest {A} `{json.Struct A} (ctx : Context) (endpoint : string)
  (body : A) : http.Request.t :=
  http.SetHeader
    (http.Request.mk http.MethodPost (host +:+ endpoint) ∅ (json.Marshal body).1 ctx)
    "Content-type" "application/json; charset=UTF8".

(** [doHTTP] receives the response [resp]: the context is not nil, so the
    request is built, and the client answers it with [resp]. *)
Definition received {A} `{json.Struct A} (c : Client) (ctx : Context)
  (endpoint : string) (body : A) (resp : http.Response.t) : Prop :=
  ctx <> http.nilContext /\
  http.Transport (client c) (builtRequest ctx endpoint body) = inl resp.

(** A status of the 2xx class. *)
Definition is2xx (status : Z) : Prop := 200 <= status <= 299.

(** The elements of a list joined with a separator, as the specification
    words it: the elements in order, with the separator between each two
    neighbours. *)
Definition joinedWith (sep : string) (elems : list string) : string :=
  String.concat sep elems.

(** A client whose transport answers every request with one response of
    the given status, headers and body, like the test suite's
    [newClient]. *)
Definition answering (status : Z) (header : http.Header) (body : string) : Client :=
  {| client := http.mkClient
                 (fun _ => inl (http.Response.mk status header (http.NewReader body))) 0;
     consumerKey := "key" |}.

(** The input of the first case of the test suite's [TestClient_Add]. *)
Definition exampleInput : AddInput.t :=
  AddInput.mk "http://example.link" "" [] "token".

(** A string with none of the bytes that mean something inside a query:
    the separators [&] and [;], the escape [%] and the plus. *)
Definition plain (s : string) : bool :=
  negb (str.Contains s "&" || str.Contains s ";"
        || str.Contains s "%" || str.Contains s "+").

(** The request as [http.NewRequestWithContext] hands it back, before
    [doHTTP] sets its content type. *)
Definition newRequest {A} `{json.Struct A} (ctx : Context) (endpoint : string)
  (body : A) : http.Request.t :=
  http.Request.mk http.MethodPost (host +:+ endpoint) ∅ (json.Marshal body).1 ctx.

(** The exchanges in a log: its [Client.Do] events. *)
Definition isDo (e : http.Event) : bool :=
  match e with http.EvDo _ => true | _ => false end.

Definition exchanges (log : list http.Event) : nat :=
  length (List.filter isDo log).

(** The events [doHTTP] adds to the log once it holds the response
    [resp]: the body is read only under status 200 and closed last. *)
Definition responseEvents (resp : http.Response.t) : list http.Event :=
  (if http.Response.StatusCode resp =? 200
   then [http.EvReadAll (http.Response.Body resp)] else [])
  ++ [http.EvClose (http.Response.Body resp)].

(* ===================================================================== *)
(** ** Facts about strings and formatting *)
(* ===================================================================== *)

#[local] Arguments String.append !_ _ : simpl nomatch.

Lemma append_nil_r (s : string) : s +:+ "" = s.
Proof. induction s as [|a s IH]; simpl; [reflexivity | now f_equal]. Qed.

Lemma append_assoc (s t u : string) : (s +:+ t) +:+ u = s +:+ t +:+ u.
Proof. induction s as [|a s IH]; simpl; [reflexivity | now f_equal]. Qed.

Lemma eqb_empty_false (s : string) : s <> "" -> String.eqb s "" = false.
Proof. intros Hs. now apply String.eqb_neq. Qed.

Lemma Sprintf_API_Error (x : string) :
  fmt.Sprintf "API Error: %s" [x] = "API Error: " +:+ x.
Proof. cbn. now rewrite append_nil_r. Qed.

Lemma Sprintf_authorizeUrl (requestToken redirectUrl : string) :
  fmt.Sprintf authorizeUrl [requestToken; redirectUrl] =
    "https://getpocket.com/auth/authorize?request_token=" +:+ requestToken
      +:+ "&redirect_uri=" +:+ redirectUrl.
Proof.
  unfold authorizeUrl. cbn. rewrite append_nil_r. reflexivity.
Qed.

(* ===================================================================== *)
(** ** The shared dispatch helper *)
(* ===================================================================== *)

Ltac io_step :=
  cbv beta iota zeta delta
    [http.defer http.Do http.Close http.ReadAll http.emit
     http.NewRequestWithContext mbind mret http.IO_bind http.IO_ret].

Section Dispatch.
Context {A : Type} `{json.Struct A}.
Variables (c : Client) (ctx : Context) (endpoint : string) (body : A).
Variable resp : http.Response.t.
Hypothesis Hrecv : received c ctx endpoint body resp.

(** Once the response is in, [doHTTP] is a function of it. *)
Lemma doHTTP_received tr :
  doHTTP c ctx endpoint body tr =
    let sent :=
      tr ++ [http.EvNewRequest
               (http.Request.mk http.MethodPost (host +:+ endpoint) ∅
                  (json.Marshal body).1 ctx);
             http.EvDo (builtRequest ctx endpoint body)] in
    let rbody := http.Response.Body resp in
    if negb (http.Response.StatusCode resp =? 200) then
      ((∅, Some (errors.New ("API Error: " +:+
                   http.Get (http.Response.Header resp) xErrorHeader))),
       sent ++ [http.EvClose rbody])
    else
      let done := sent ++ [http.EvReadAll rbody; http.EvClose rbody] in
      match http.readErr rbody with
      | Some e => ((∅, Some (errors.withMessage e "failed to read response body")), done)
      | None =>
          match url.ParseQuery (http.content rbody) with
          | (_, Some e) =>
              ((∅, Some (errors.withMessage e "failed to parse response body")), done)
          | (values, None) => ((values, None), done)
          end
      end.
Proof.
  destruct Hrecv as [Hctx Htr].
  unfold doHTTP. destruct ctx as [|d cancelled]; [contradiction|].
  unfold builtRequest in *. cbn [json.Marshal fst] in *.
  io_step. rewrite Htr, Sprintf_API_Error.
  unfold http.StatusOK.
  destruct (negb (http.Response.StatusCode resp =? 200)).
  - cbn. rewrite <- !app_assoc. reflexivity.
  - destruct (http.readErr (http.Response.Body resp)) as [e|].
    + cbn. rewrite <- !app_assoc. reflexivity.
    + destruct (url.ParseQuery (http.content (http.Response.Body resp))) as [values [e|]];
        cbn; rewrite <- !app_assoc; reflexivity.
Qed.

End Dispatch.

(* ===================================================================== *)
(** ** Strings in JSON *)
(* ===================================================================== *)

(** The encoder leaves a string of valid UTF-8 as it is. *)
Lemma coerce_valid (s : string) : utf8.ValidString s = true -> json.coerce s = s.
Proof.
  unfold json.coerce, utf8.ValidString.
  assert (Hlen : forall n s, (String.length s <= n)%nat ->
            forallb utf8.isValid (utf8.runes s) = true ->
            json.coerceRunes (utf8.runes s) = s).
  { clear s. induction n as [|n IH]; intros s Hn.
    - destruct s; [reflexivity | cbn in Hn; lia].
    - destruct s as [|b0 r0]; [reflexivity|]. cbn [utf8.runes].
      destruct (N_of_ascii b0 <? 128)%N.
      { cbn. intros Hv. rewrite IH; [reflexivity | cbn in Hn; lia | exact Hv]. }
      destruct r0 as [|b1 r1]; [discriminate|].
      destruct (utf8.is2 b0 b1).
      { cbn. intros Hv. rewrite IH; [reflexivity | cbn in Hn; lia | exact Hv]. }
      destruct r1 as [|b2 r2]; [discriminate|].
      destruct (utf8.is3 b0 b1 b2).
      { cbn. intros Hv. rewrite IH; [reflexivity | cbn in Hn; lia | exact Hv]. }
      destruct r2 as [|b3 r3]; [discriminate|].
      destruct (utf8.is4 b0 b1 b2 b3); [|discriminate].
      cbn. intros Hv. rewrite IH; [reflexivity | cbn in Hn; lia | exact Hv]. }
  apply (Hlen (String.length s)). lia.
Qed.

(** A byte that begins no well-formed sequence is written as U+FFFD. *)
Example coerce_invalid_byte :
  json.coerce (String (ascii_of_N 255) "a") = utf8.replacement +:+ "a".
Proof. reflexivity. Qed.

(* ===================================================================== *)
(** ** Joining tags *)
(* ===================================================================== *)

Lemma writeRest_joined (sep : string) (rest : list string) :
  forall b s, str.writeRest b sep (s :: rest) = b +:+ sep +:+ joinedWith sep (s :: rest).
Proof.
  unfold joinedWith.
  induction rest as [|s' rest IH]; intros b s.
  - reflexivity.
  - change (str.writeRest b sep (s :: s' :: rest))
      with (str.writeRest (b +:+ sep +:+ s) sep (s' :: rest)).
    rewrite IH.
    change (String.concat sep (s :: s' :: rest))
      with (s +:+ sep +:+ String.concat sep (s' :: rest)).
    now rewrite !append_assoc.
Qed.

(** [strings.Join] computes what the specification calls joining. *)
Lemma Join_joined (elems : list string) (sep : string) :
  str.Join elems sep = joinedWith sep elems.
Proof.
  destruct elems as [|e [|s rest]]; try reflexivity.
  unfold str.Join. now rewrite writeRest_joined.
Qed.

(** C8. For every [AddInput], the [addRequest] generated from it carries
    the tags as one string, the elements of the input list joined with a
    comma, and that string, as the encoder writes it, is the [tags] member
    of the request's JSON; the list [qwe], [rty], [123] becomes
    [qwe,rty,123]. *)
Theorem generateRequest_tags_joined (i : AddInput.t) (consumerKey : string) :
  addRequest.Tags (generateRequest i consumerKey) = joinedWith "," (AddInput.Tags i) /\
  json.member "tags" (json.Marshal (generateRequest i consumerKey)).1
    = Some (json.coerce (joinedWith "," (AddInput.Tags i))) /\
  (forall u title token,
     addRequest.Tags
       (generateRequest (AddInput.mk u title ["qwe"; "rty"; "123"] token) consumerKey)
     = "qwe,rty,123").
Proof.
  split; [|split].
  - apply Join_joined.
  - rewrite <- Join_joined. reflexivity.
  - reflexivity.
Qed.

(* ===================================================================== *)
(** ** The JSON of an [addRequest] *)
(* ===================================================================== *)

(** C4. The JSON of every [addRequest] has the five members [url],
    [title], [tags], [access_token], [consumer_key], whatever the fields
    hold: [title] and [tags] are written even when empty, and then hold
    the empty string.  Each member holds its field's string as the encoder
    writes it.  The option that follows the comma in the tag
    [title, omitempty] begins with a space, so it is not the option
    [omitempty]; without the space it would be.  The key is still [title]
    (and [tags]). *)
Theorem addRequest_json_keeps_empty_fields (r : addRequest.t) :
  json.Marshal r =
    (json.Object [ ("url", json.coerce (addRequest.URL r));
                   ("title", json.coerce (addRequest.Title r));
                   ("tags", json.coerce (addRequest.Tags r));
                   ("access_token", json.coerce (addRequest.AccessToken r));
                   ("consumer_key", json.coerce (addRequest.ConsumerKey r)) ], None) /\
  json.member "title" (json.Marshal r).1 = Some (json.coerce (addRequest.Title r)) /\
  json.member "tags" (json.Marshal r).1 = Some (json.coerce (addRequest.Tags r)) /\
  (forall u token key,
     json.Marshal (addRequest.mk u "" "" token key) =
       (json.Object [ ("url", json.coerce u); ("title", ""); ("tags", "");
                      ("access_token", json.coerce token);
                      ("consumer_key", json.coerce key) ], None)) /\
  map fst (json.members (json.Marshal r).1) =
    ["url"; "title"; "tags"; "access_token"; "consumer_key"] /\
  json.omitEmpty (json.mkField "Title" "title, omitempty" (addRequest.Title r)) = false /\
  json.omitEmpty (json.mkField "Tags" "tags, omitempty" (addRequest.Tags r)) = false /\
  json.omitEmpty (json.mkField "Title" "title,omitempty" (addRequest.Title r)) = true /\
  json.fieldName (json.mkField "Title" "title, omitempty" (addRequest.Title r)) = "title" /\
  json.fieldName (json.mkField "Tags" "tags, omitempty" (addRequest.Tags r)) = "tags".
Proof.
  destruct r as [u title tags token key].
  repeat split; reflexivity.
Qed.

(* ===================================================================== *)
(** ** The authorization URL *)
(* ===================================================================== *)

(** C5. [GetAuthorizationURL] is a function of its two strings alone (it
    runs outside [IO] and does not look at the client).  It returns an
    error exactly when the request token or the redirect URL is empty; for
    two non-empty strings it returns the authorization URL with the token
    and the redirect URL copied in byte for byte.  For [qwe-rty-123] and
    [http://localhost:80/] the URL is the one the specification quotes. *)
Theorem GetAuthorizationURL_template (c : Client) (requestToken redirectUrl : string) :
  (forall c', GetAuthorizationURL c' requestToken redirectUrl
              = GetAuthorizationURL c requestToken redirectUrl) /\
  ((GetAuthorizationURL c requestToken redirectUrl).2 <> None <->
     requestToken = "" \/ redirectUrl = "") /\
  (requestToken <> "" -> redirectUrl <> "" ->
     GetAuthorizationURL c requestToken redirectUrl =
       ("https://getpocket.com/auth/authorize?request_token=" +:+ requestToken
          +:+ "&redirect_uri=" +:+ redirectUrl, None)) /\
  GetAuthorizationURL c "qwe-rty-123" "http://localhost:80/" =
    ("https://getpocket.com/auth/authorize?request_token=qwe-rty-123&redirect_uri=http://localhost:80/",
     None).
Proof.
  unfold GetAuthorizationURL.
  split; [reflexivity|]. split; [|split; [|reflexivity]].
  - destruct (String.eqb_spec requestToken "") as [Ht|Ht];
      destruct (String.eqb_spec redirectUrl "") as [Hr|Hr]; cbn;
      split; intros Hx; try tauto; try discriminate.
  - intros Ht Hr. rewrite !eqb_empty_false by assumption. cbn [orb].
    now rewrite Sprintf_authorizeUrl.
Qed.

Lemma GetAuthorizationURL_template_witness :
  GetAuthorizationURL (answering 200 ∅ "") "tok" "http://r/" =
    ("https://getpocket.com/auth/authorize?request_token=" +:+ "tok"
       +:+ "&redirect_uri=" +:+ "http://r/", None).
Proof.
  apply (proj1 (proj2 (proj2
           (GetAuthorizationURL_template (answering 200 ∅ "") "tok" "http://r/"))));
    discriminate.
Defined.

(** C10. Whichever argument of [GetAuthorizationURL] is empty, the error
    reads [empty request token]; so it does for a non-empty request token
    and an empty redirect URL. *)
Theorem GetAuthorizationURL_error_text (c : Client) (requestToken redirectUrl : string) :
  requestToken = "" \/ redirectUrl = "" ->
  exists e, GetAuthorizationURL c requestToken redirectUrl = ("", Some e) /\
            errors.Error e = "empty request token".
Proof.
  intros Hempty. exists (errors.New "empty request token").
  split; [|reflexivity].
  unfold GetAuthorizationURL.
  destruct Hempty as [-> | ->]; [reflexivity|].
  now rewrite String.eqb_refl, orb_true_r.
Qed.

Lemma GetAuthorizationURL_error_text_witness :
  exists e, GetAuthorizationURL (answering 200 ∅ "") "qwe-rty-123" "" = ("", Some e) /\
            errors.Error e = "empty request token".
Proof.
  apply (GetAuthorizationURL_error_text (answering 200 ∅ "") "qwe-rty-123" "").
  right. reflexivity.
Defined.

(* ===================================================================== *)
(** ** Parsing a well-formed body *)
(* ===================================================================== *)

Lemma Contains_app (a b : string) (c : ascii) :
  str.Contains (a +:+ b) c = str.Contains a c || str.Contains b c.
Proof.
  induction a as [|d a IH]; simpl; [reflexivity|].
  rewrite IH. now rewrite orb_assoc.
Qed.

Lemma Cut_found (a b : string) (sep : ascii) :
  str.Contains a sep = false -> str.Cut (a +:+ String sep b) sep = (a, b, true).
Proof.
  induction a as [|d a IH]; simpl; intros Hno.
  - now rewrite Ascii.eqb_refl.
  - apply orb_false_iff in Hno as [Hd Ha]. rewrite Hd, (IH Ha). reflexivity.
Qed.

Lemma Cut_not_found (a : string) (sep : ascii) :
  str.Contains a sep = false -> str.Cut a sep = (a, "", false).
Proof.
  induction a as [|d a IH]; simpl; intros Hno; [reflexivity|].
  apply orb_false_iff in Hno as [Hd Ha]. rewrite Hd, (IH Ha). reflexivity.
Qed.

Lemma plain_inv (s : string) :
  plain s = true ->
  str.Contains s "&" = false /\ str.Contains s ";" = false /\
  str.Contains s "%" = false /\ str.Contains s "+" = false.
Proof.
  unfold plain. intros Hp. apply negb_true_iff in Hp.
  repeat (apply orb_false_iff in Hp as [Hp ?]). auto.
Qed.

Lemma scan_plain (s : string) (n : nat) :
  str.Contains s "%" = false -> str.Contains s "+" = false ->
  url.scan s n false = inl (n, false).
Proof.
  induction s as [|c s IH]; intros Hpc Hpl; [reflexivity|].
  simpl in Hpc, Hpl.
  apply orb_false_iff in Hpc as [Hc1 Hs1]. apply orb_false_iff in Hpl as [Hc2 Hs2].
  cbn [url.scan]. rewrite Hc1, Hc2. now apply IH.
Qed.

(** A plain string is its own decoding. *)
Lemma QueryUnescape_plain (s : string) :
  plain s = true -> url.QueryUnescape s = (s, None).
Proof.
  intros Hp. apply plain_inv in Hp as (_ & _ & Hpc & Hpl).
  unfold url.QueryUnescape. now rewrite (scan_plain _ _ Hpc Hpl).
Qed.

(** One pass of the loop on [key=value] with plain key and value. *)
Lemma parsePair_plain (m : url.Values) (err : option error) (k v : string) :
  plain k = true -> str.Contains k "=" = false -> plain v = true ->
  url.parsePair m err (k +:+ String "=" v) = (url.add m k v, err).
Proof.
  intros Hk Hkeq Hv. unfold url.parsePair.
  pose proof (plain_inv _ Hk) as (_ & Hk2 & _).
  pose proof (plain_inv _ Hv) as (_ & Hv2 & _).
  rewrite Contains_app, Hk2. simpl str.Contains. rewrite Hv2. cbn [orb].
  replace (String.eqb (k +:+ String "=" v) "") with false
    by (destruct k; reflexivity).
  rewrite (Cut_found _ _ _ Hkeq).
  now rewrite (QueryUnescape_plain _ Hk), (QueryUnescape_plain _ Hv).
Qed.

Lemma parseQuery_step (m : url.Values) (err : option error) (q : string) :
  q <> "" ->
  url.parseQuery m err q =
    url.parseQuery (url.parsePair m err (str.Cut q "&").1.1).1
                   (url.parsePair m err (str.Cut q "&").1.1).2
                   (str.Cut q "&").1.2.
Proof.
  destruct q as [|c q]; [contradiction|]. intros _.
  now rewrite url.parseQuery_equation_2.
Qed.

Lemma append_nonempty (a b : string) : a <> "" -> a +:+ b <> "".
Proof. destruct a; [contradiction | discriminate]. Qed.

(** A body made of one plain pair parses to the map that holds it. *)
Lemma ParseQuery_one (k v : string) :
  plain k = true -> str.Contains k "=" = false -> plain v = true -> k <> "" ->
  url.ParseQuery (k +:+ String "=" v) = ({[ k := [v] ]}, None).
Proof.
  intros Hk Hkeq Hv Hne. unfold url.ParseQuery.
  rewrite parseQuery_step by now apply append_nonempty.
  pose proof (plain_inv _ Hk) as (Hk1 & _). pose proof (plain_inv _ Hv) as (Hv1 & _).
  rewrite Cut_not_found
    by (rewrite Contains_app, Hk1; simpl str.Contains; now rewrite Hv1).
  cbn [fst snd]. rewrite (parsePair_plain _ _ _ _ Hk Hkeq Hv). cbn [fst snd].
  rewrite url.parseQuery_equation_1. unfold url.add.
  rewrite lookup_empty. cbn [default app]. now rewrite insert_empty.
Qed.

(** A body made of two plain pairs under different keys. *)
Lemma ParseQuery_two (k1 v1 k2 v2 : string) :
  plain k1 = true -> str.Contains k1 "=" = false -> plain v1 = true -> k1 <> "" ->
  plain k2 = true -> str.Contains k2 "=" = false -> plain v2 = true -> k2 <> "" ->
  k1 <> k2 ->
  url.ParseQuery (k1 +:+ String "=" (v1 +:+ String "&" (k2 +:+ String "=" v2))) =
    (<[ k2 := [v2] ]> {[ k1 := [v1] ]}, None).
Proof.
  intros Hk1 Hk1eq Hv1 Hne1 Hk2 Hk2eq Hv2 Hne2 Hdiff. unfold url.ParseQuery.
  rewrite parseQuery_step by now apply append_nonempty.
  pose proof (plain_inv _ Hk1) as (Hk1a & _). pose proof (plain_inv _ Hv1) as (Hv1a & _).
  pose proof (plain_inv _ Hk2) as (Hk2a & _). pose proof (plain_inv _ Hv2) as (Hv2a & _).
  change (k1 +:+ String "=" (v1 +:+ String "&" (k2 +:+ String "=" v2)))
    with (k1 +:+ (String "=" EmptyString) +:+ (v1 +:+ String "&" (k2 +:+ String "=" v2))).
  rewrite <- !append_assoc.
  rewrite Cut_found
    by (rewrite !Contains_app, Hk1a, Hv1a; reflexivity).
  cbn [fst snd]. rewrite append_assoc.
  change (k1 +:+ String "=" EmptyString +:+ v1) with (k1 +:+ String "=" v1).
  rewrite (parsePair_plain _ _ _ _ Hk1 Hk1eq Hv1). cbn [fst snd].
  rewrite parseQuery_step by now apply append_nonempty.
  rewrite Cut_not_found
    by (rewrite Contains_app, Hk2a; simpl str.Contains; now rewrite Hv2a).
  cbn [fst snd]. rewrite (parsePair_plain _ _ _ _ Hk2 Hk2eq Hv2). cbn [fst snd].
  rewrite url.parseQuery_equation_1. unfold url.add.
  rewrite lookup_empty. cbn [default app]. rewrite insert_empty.
  rewrite lookup_singleton_ne by assumption. reflexivity.
Qed.

Lemma Get_insert_eq (m : url.Values) (k v : string) (vs : list string) :
  url.Get (<[ k := v :: vs ]> m) k = v.
Proof. unfold url.Get. now rewrite lookup_insert_eq. Qed.

Lemma Get_insert_ne (m : url.Values) (k k' : string) (vs : list string) :
  k <> k' -> url.Get (<[ k := vs ]> m) k' = url.Get m k'.
Proof. intros Hne. unfold url.Get. now rewrite lookup_insert_ne. Qed.

(* ===================================================================== *)
(** ** Escaped values come back as they were *)
(* ===================================================================== *)

Ltac each_byte c := destruct c as [[] [] [] [] [] [] [] []].

Lemma escapeByte_scan (c : ascii) (rest : string) (n : nat) (hasPlus : bool) :
  url.scan (url.escapeByte c +:+ rest) n hasPlus =
    url.scan rest
      (if url.shouldEscape c && negb (Ascii.eqb c " ") then S n else n)
      (hasPlus || Ascii.eqb c " ").
Proof. each_byte c; destruct hasPlus; reflexivity. Qed.

Lemma escapeByte_decode (c : ascii) (rest : string) :
  url.decode (url.escapeByte c +:+ rest) = String c (url.decode rest).
Proof. each_byte c; reflexivity. Qed.

Lemma escapeByte_clean (c sep : ascii) :
  In sep ["&"; ";"; "="]%char -> str.Contains (url.escapeByte c) sep = false.
Proof.
  intros [<- | [<- | [<- | []]]]; each_byte c; reflexivity.
Qed.

Lemma escapeByte_unreserved (c : ascii) :
  url.shouldEscape c = false -> url.escapeByte c = String c EmptyString.
Proof. intros Hc. unfold url.escapeByte. now rewrite Hc. Qed.

Lemma QueryEscape_clean (s : string) (sep : ascii) :
  In sep ["&"; ";"; "="]%char -> str.Contains (url.QueryEscape s) sep = false.
Proof.
  intros Hsep. induction s as [|c s IH]; [reflexivity|].
  cbn [url.QueryEscape]. now rewrite Contains_app, (escapeByte_clean _ _ Hsep), IH.
Qed.

Lemma decode_QueryEscape (s : string) : url.decode (url.QueryEscape s) = s.
Proof.
  induction s as [|c s IH]; [reflexivity|].
  cbn [url.QueryEscape]. now rewrite escapeByte_decode, IH.
Qed.

(** The first loop of [unescape] accepts every escaped string; when it
    counts no escape and sees no plus, nothing was escaped. *)
Lemma scan_QueryEscape (s : string) :
  forall n hasPlus, exists n' hasPlus',
    url.scan (url.QueryEscape s) n hasPlus = inl (n', hasPlus') /\
    (n <= n')%nat /\ (hasPlus = true -> hasPlus' = true) /\
    (n' = n -> hasPlus' = false -> url.QueryEscape s = s).
Proof.
  induction s as [|c s IH]; intros n hasPlus.
  - exists n, hasPlus. cbn. auto.
  - cbn [url.QueryEscape]. rewrite escapeByte_scan.
    destruct (IH (if url.shouldEscape c && negb (Ascii.eqb c " ") then S n else n)
                 (hasPlus || Ascii.eqb c " ")) as (n' & hp' & Hscan & Hle & Hplus & Hid).
    exists n', hp'. split; [exact Hscan|].
    destruct (url.shouldEscape c) eqn:Hesc; destruct (Ascii.eqb c " ") eqn:Hsp;
      cbn [andb negb] in *; rewrite ?orb_true_r, ?orb_false_r in *.
    + repeat split; [lia | auto |]. intros _ Hf. rewrite Hplus in Hf by reflexivity.
      discriminate.
    + repeat split; [lia | auto | lia].
    + repeat split; [lia | auto |]. intros _ Hf. rewrite Hplus in Hf by reflexivity.
      discriminate.
    + repeat split; [lia | auto |]. intros Hn Hf.
      rewrite (escapeByte_unreserved _ Hesc), (Hid Hn Hf). reflexivity.
Qed.

(** [url.QueryUnescape] undoes [url.QueryEscape], on every byte string. *)
Lemma QueryUnescape_QueryEscape (s : string) :
  url.QueryUnescape (url.QueryEscape s) = (s, None).
Proof.
  unfold url.QueryUnescape.
  destruct (scan_QueryEscape s 0%nat false) as (n & hp & -> & _ & _ & Hid).
  destruct n as [|n]; destruct hp; cbn [Nat.eqb andb negb];
    rewrite ?decode_QueryEscape; try reflexivity.
  now rewrite Hid.
Qed.

(** One pass of the loop on [key=value] with a plain key and an escaped
    value. *)
Lemma parsePair_escaped (m : url.Values) (err : option error) (k v : string) :
  plain k = true -> str.Contains k "=" = false ->
  url.parsePair m err (k +:+ String "=" (url.QueryEscape v)) = (url.add m k v, err).
Proof.
  intros Hk Hkeq. unfold url.parsePair.
  pose proof (plain_inv _ Hk) as (_ & Hk2 & _).
  rewrite Contains_app, Hk2. simpl str.Contains.
  rewrite QueryEscape_clean by (cbn; auto). cbn [orb].
  replace (String.eqb (k +:+ String "=" (url.QueryEscape v)) "") with false
    by (destruct k; reflexivity).
  rewrite (Cut_found _ _ _ Hkeq).
  now rewrite (QueryUnescape_plain _ Hk), QueryUnescape_QueryEscape.
Qed.

Lemma escaped_pair_clean (k v : string) :
  plain k = true -> str.Contains (k +:+ String "=" (url.QueryEscape v)) "&" = false.
Proof.
  intros Hk. pose proof (plain_inv _ Hk) as (Hk1 & _).
  rewrite Contains_app, Hk1. simpl str.Contains.
  now rewrite QueryEscape_clean by (cbn; auto).
Qed.

(** A body made of one pair whose value is escaped. *)
Lemma ParseQuery_one_escaped (k v : string) :
  plain k = true -> str.Contains k "=" = false -> k <> "" ->
  url.ParseQuery (k +:+ String "=" (url.QueryEscape v)) = ({[ k := [v] ]}, None).
Proof.
  intros Hk Hkeq Hne. unfold url.ParseQuery.
  rewrite parseQuery_step by now apply append_nonempty.
  rewrite Cut_not_found by now apply escaped_pair_clean.
  cbn [fst snd]. rewrite (parsePair_escaped _ _ _ _ Hk Hkeq). cbn [fst snd].
  rewrite url.parseQuery_equation_1. unfold url.add.
  rewrite lookup_empty. cbn [default app]. now rewrite insert_empty.
Qed.

(** A body made of two pairs whose values are escaped. *)
Lemma ParseQuery_pairs_escaped (k1 v1 k2 v2 : string) :
  plain k1 = true -> str.Contains k1 "=" = false -> k1 <> "" ->
  plain k2 = true -> str.Contains k2 "=" = false -> k2 <> "" ->
  url.ParseQuery (k1 +:+ String "=" (url.QueryEscape v1 +:+
                    String "&" (k2 +:+ String "=" (url.QueryEscape v2)))) =
    (url.add (url.add ∅ k1 v1) k2 v2, None).
Proof.
  intros Hk1 Hk1eq Hne1 Hk2 Hk2eq Hne2. unfold url.ParseQuery.
  rewrite parseQuery_step by now apply append_nonempty.
  change (k1 +:+ String "=" (url.QueryEscape v1 +:+
            String "&" (k2 +:+ String "=" (url.QueryEscape v2))))
    with (k1 +:+ (String "=" EmptyString) +:+
            (url.QueryEscape v1 +:+ String "&" (k2 +:+ String "=" (url.QueryEscape v2)))).
  rewrite <- !append_assoc.
  rewrite Cut_found
    by (rewrite append_assoc;
        change (k1 +:+ String "=" EmptyString +:+ url.QueryEscape v1)
          with (k1 +:+ String "=" (url.QueryEscape v1));
        now apply escaped_pair_clean).
  cbn [fst snd]. rewrite append_assoc.
  change (k1 +:+ String "=" EmptyString +:+ url.QueryEscape v1)
    with (k1 +:+ String "=" (url.QueryEscape v1)).
  rewrite (parsePair_escaped _ _ _ _ Hk1 Hk1eq). cbn [fst snd].
  rewrite parseQuery_step by now apply append_nonempty.
  rewrite Cut_not_found by now apply escaped_pair_clean.
  cbn [fst snd]. rewrite (parsePair_escaped _ _ _ _ Hk2 Hk2eq). cbn [fst snd].
  now rewrite url.parseQuery_equation_1.
Qed.

Lemma Get_add_add (k1 v1 k2 v2 : string) :
  k1 <> k2 ->
  url.Get (url.add (url.add ∅ k1 v1) k2 v2) k1 = v1 /\
  url.Get (url.add (url.add ∅ k1 v1) k2 v2) k2 = v2.
Proof.
  intros Hne. unfold url.add, url.Get.
  rewrite lookup_empty. cbn [default app].
  rewrite (lookup_insert_ne _ k1 k2) by assumption. rewrite lookup_empty.
  cbn [default app].
  rewrite lookup_insert_ne by congruence.
  now rewrite !lookup_insert_eq.
Qed.

(* ===================================================================== *)
(** ** What the operations make of a response with status 200 *)
(* ===================================================================== *)

Lemma validate_ok (input : AddInput.t) :
  AddInput.URL input <> "" -> AddInput.AccessToken input <> "" -> validate input = None.
Proof. intros Hu Ht. unfold validate. now rewrite !eqb_empty_false. Qed.

Section Status200.
Variables (c : Client) (ctx : Context) (resp : http.Response.t) (tr : list http.Event).
Hypothesis Hstatus : http.Response.StatusCode resp = 200.
Hypothesis Hread : http.readErr (http.Response.Body resp) = None.

Lemma GetRequestToken_200 (redirectUrl : string) :
  received c ctx endpointRequestToken
    (requestTokenRequest.mk (consumerKey c) redirectUrl) resp ->
  (GetRequestToken c ctx redirectUrl tr).1 =
    match url.ParseQuery (http.content (http.Response.Body resp)) with
    | (_, Some e) => ("", Some (errors.withMessage e "failed to parse response body"))
    | (values, None) =>
        if String.eqb (url.Get values "code") "" then
          ("", Some (errors.New "empty request token in API response"))
        else (url.Get values "code", None)
    end.
Proof.
  intros Hrecv. unfold GetRequestToken. io_step.
  rewrite (doHTTP_received _ _ _ _ resp Hrecv). cbv zeta.
  rewrite Hstatus, Hread. cbn [Z.eqb Pos.eqb negb].
  destruct (url.ParseQuery _) as [values [e|]]; [reflexivity|].
  destruct (String.eqb _ ""); reflexivity.
Qed.

Lemma Authorize_200 (requestToken : string) :
  requestToken <> "" ->
  received c ctx endpointAuthorize
    (authorizeRequest.mk (consumerKey c) requestToken) resp ->
  (Authorize c ctx requestToken tr).1 =
    match url.ParseQuery (http.content (http.Response.Body resp)) with
    | (_, Some e) => (None, Some (errors.withMessage e "failed to parse response body"))
    | (values, None) =>
        if String.eqb (url.Get values "access_token") "" then
          (None, Some (errors.New "empty access token in API response"))
        else
          (Some {| AuthorizeResponse.Access_token := url.Get values "access_token";
                   AuthorizeResponse.Username := url.Get values "username" |}, None)
    end.
Proof.
  intros Htoken Hrecv. unfold Authorize. rewrite (eqb_empty_false _ Htoken). io_step.
  rewrite (doHTTP_received _ _ _ _ resp Hrecv). cbv zeta.
  rewrite Hstatus, Hread. cbn [Z.eqb Pos.eqb negb].
  destruct (url.ParseQuery _) as [values [e|]]; [reflexivity|].
  destruct (String.eqb _ ""); reflexivity.
Qed.

Lemma Add_200 (input : AddInput.t) :
  AddInput.URL input <> "" -> AddInput.AccessToken input <> "" ->
  received c ctx endpointAdd (generateRequest input (consumerKey c)) resp ->
  (Add c ctx input tr).1 =
    errors.WithMessage (url.ParseQuery (http.content (http.Response.Body resp))).2 "failed to parse response body".
Proof.
  intros Hu Ht Hrecv. unfold Add. rewrite (validate_ok _ Hu Ht). io_step.
  rewrite (doHTTP_received _ _ _ _ resp Hrecv). cbv zeta.
  rewrite Hstatus, Hread. cbn [Z.eqb Pos.eqb negb].
  destruct (url.ParseQuery _) as [values [e|]]; reflexivity.
Qed.

End Status200.

Lemma Get_absent (values : url.Values) (key : string) :
  values !! key = None -> url.Get values key = "".
Proof. intros Hk. unfold url.Get. now rewrite Hk. Qed.

(* ===================================================================== *)
(** ** Request-token acquisition *)
(* ===================================================================== *)

(** C7. When [GetRequestToken] receives a response with status 200 whose
    body is read to the end, it returns the value of the key [code] in the
    form-encoded body when that value is not empty, and fails when the key
    is absent, when its value is empty, and when the body is not
    form-encoded.  For every non-empty byte string [X], the body that holds
    [X] under [code], escaped as a form value is, gives back [X]; so
    [code=ABC] gives [ABC] and [code=%41+B] gives [A B].  The body [code=]
    fails. *)
Theorem GetRequestToken_status_200 (c : Client) (ctx : Context) (redirectUrl : string)
  (resp : http.Response.t) (tr : list http.Event) :
  received c ctx endpointRequestToken
    (requestTokenRequest.mk (consumerKey c) redirectUrl) resp ->
  http.Response.StatusCode resp = 200 ->
  http.readErr (http.Response.Body resp) = None ->
  let result := (GetRequestToken c ctx redirectUrl tr).1 in
  let body := http.content (http.Response.Body resp) in
  (forall values, url.ParseQuery body = (values, None) ->
     (url.Get values "code" <> "" -> result = (url.Get values "code", None)) /\
     (url.Get values "code" = "" -> exists e, result = ("", Some e)) /\
     (values !! "code" = None -> exists e, result = ("", Some e))) /\
  (forall values e, url.ParseQuery body = (values, Some e) ->
     exists e', result = ("", Some e')) /\
  (forall X, X <> "" -> body = "code=" +:+ url.QueryEscape X -> result = (X, None)) /\
  (forall X, plain X = true -> X <> "" -> body = "code=" +:+ X -> result = (X, None)) /\
  (body = "code=ABC" -> result = ("ABC", None)) /\
  (body = "code=%41+B" -> result = ("A B", None)) /\
  (body = "code=" -> exists e, result = ("", Some e)) /\
  (body = "code=%4" -> exists e, result = ("", Some e)).
Proof.
  intros Hrecv Hstatus Hread result body. subst result.
  rewrite (GetRequestToken_200 _ _ _ _ Hstatus Hread _ Hrecv). fold body.
  repeat apply conj.
  - intros values ->. split; [|split].
    + intros Hcode. now rewrite (eqb_empty_false _ Hcode).
    + intros ->. eauto.
    + intros Habs. rewrite (Get_absent _ _ Habs). eauto.
  - intros values e ->. eauto.
  - intros X Hne ->.
    change ("code=" +:+ url.QueryEscape X) with ("code" +:+ String "=" (url.QueryEscape X)).
    rewrite ParseQuery_one_escaped by (reflexivity || discriminate).
    unfold url.Get. rewrite lookup_singleton_eq. now rewrite (eqb_empty_false _ Hne).
  - intros X HX Hne ->.
    change ("code=" +:+ X) with ("code" +:+ String "=" X).
    rewrite ParseQuery_one by (reflexivity || assumption || discriminate).
    unfold url.Get. rewrite lookup_singleton_eq. now rewrite (eqb_empty_false _ Hne).
  - intros ->. reflexivity.
  - intros ->. reflexivity.
  - intros ->. eexists. reflexivity.
  - intros ->. eexists. reflexivity.
Qed.

Lemma GetRequestToken_status_200_witness :
  (http.run (GetRequestToken (answering 200 ∅ "code=a%2Fb+c") http.Background
               "http://localhost:80/")).1 = ("a/b c", None).
Proof.
  assert (Hrecv : received (answering 200 ∅ "code=a%2Fb+c") http.Background
                    endpointRequestToken
                    (requestTokenRequest.mk "key" "http://localhost:80/")
                    (http.Response.mk 200 ∅ (http.NewReader "code=a%2Fb+c")))
    by (split; [discriminate | reflexivity]).
  destruct (GetRequestToken_status_200 (answering 200 ∅ "code=a%2Fb+c") http.Background
              "http://localhost:80/"
              (http.Response.mk 200 ∅ (http.NewReader "code=a%2Fb+c")) []
              Hrecv eq_refl eq_refl) as (_ & _ & Hescaped & _).
  apply (Hescaped "a/b c"); [discriminate | reflexivity].
Defined.

(** C2 (what the code does).  [GetRequestToken] does not look at the
    redirect URL: with an empty one it sends the request all the same, and
    when the server answers 200 with [code=ABC] it returns [ABC] and no
    error. *)
Theorem GetRequestToken_empty_redirect_succeeds :
  http.run (GetRequestToken (answering 200 ∅ "code=ABC") http.Background "") =
    (("ABC", None),
     [ http.EvNewRequest
         (http.Request.mk "POST" "https://getpocket.com/v3/oauth/request" ∅
            (json.Object [("consumer_key", "key"); ("redirect_uri", "")])
            http.Background);
       http.EvDo
         (http.Request.mk "POST" "https://getpocket.com/v3/oauth/request"
            {[ "Content-Type" := ["application/json; charset=UTF8"] ]}
            (json.Object [("consumer_key", "key"); ("redirect_uri", "")])
            http.Background);
       http.EvReadAll (http.NewReader "code=ABC");
       http.EvClose (http.NewReader "code=ABC") ]).
Proof. vm_compute. reflexivity. Qed.

(* ===================================================================== *)
(** ** Token exchange *)
(* ===================================================================== *)

(** C6. When [Authorize], called with a non-empty request token, receives
    a response with status 200 whose body is read to the end and is
    form-encoded, it returns the access token and the user name found
    under [access_token] and [username] when the access token is not
    empty; the user name is passed on as it is, empty if absent.  For
    every non-empty byte string [X] and every byte string [Y], the body
    that holds [X] under [access_token] and [Y] under [username], escaped
    as form values are and in either order, gives the pair of [X] and [Y].
    When [access_token] is absent or empty, and when the body is not
    form-encoded, the call fails. *)
Theorem Authorize_status_200 (c : Client) (ctx : Context) (requestToken : string)
  (resp : http.Response.t) (tr : list http.Event) :
  requestToken <> "" ->
  received c ctx endpointAuthorize
    (authorizeRequest.mk (consumerKey c) requestToken) resp ->
  http.Response.StatusCode resp = 200 ->
  http.readErr (http.Response.Body resp) = None ->
  let result := (Authorize c ctx requestToken tr).1 in
  let body := http.content (http.Response.Body resp) in
  (forall values, url.ParseQuery body = (values, None) ->
     (url.Get values "access_token" <> "" ->
        result = (Some {| AuthorizeResponse.Access_token := url.Get values "access_token";
                          AuthorizeResponse.Username := url.Get values "username" |},
                  None)) /\
     (url.Get values "access_token" = "" -> exists e, result = (None, Some e)) /\
     (values !! "access_token" = None -> exists e, result = (None, Some e))) /\
  (forall values e, url.ParseQuery body = (values, Some e) ->
     exists e', result = (None, Some e')) /\
  (forall X Y, X <> "" ->
     body = "access_token=" +:+ url.QueryEscape X +:+ "&username=" +:+ url.QueryEscape Y ->
     result = (Some (AuthorizeResponse.mk X Y), None)) /\
  (forall X Y, X <> "" ->
     body = "username=" +:+ url.QueryEscape Y +:+ "&access_token=" +:+ url.QueryEscape X ->
     result = (Some (AuthorizeResponse.mk X Y), None)) /\
  (forall X, X <> "" -> body = "access_token=" +:+ url.QueryEscape X ->
     result = (Some (AuthorizeResponse.mk X ""), None)) /\
  (forall X Y, plain X = true -> plain Y = true -> X <> "" ->
     body = "access_token=" +:+ X +:+ "&username=" +:+ Y ->
     result = (Some (AuthorizeResponse.mk X Y), None)) /\
  (body = "access_token=X&username=Y" ->
     result = (Some (AuthorizeResponse.mk "X" "Y"), None)) /\
  (body = "access_token=tok%2D1&username=a+b" ->
     result = (Some (AuthorizeResponse.mk "tok-1" "a b"), None)) /\
  (body = "access_token=X" -> result = (Some (AuthorizeResponse.mk "X" ""), None)) /\
  (body = "username=Y" -> exists e, result = (None, Some e)) /\
  (body = "access_token=X&username=%" -> exists e, result = (None, Some e)).
Proof.
  intros Htoken Hrecv Hstatus Hread result body. subst result.
  rewrite (Authorize_200 _ _ _ _ Hstatus Hread _ Htoken Hrecv). fold body.
  repeat apply conj.
  - intros values ->. split; [|split].
    + intros Hx. now rewrite (eqb_empty_false _ Hx).
    + intros ->. eauto.
    + intros Habs. rewrite (Get_absent _ _ Habs). eauto.
  - intros values e ->. eauto.
  - intros X Y Hne ->.
    change ("access_token=" +:+ url.QueryEscape X +:+ "&username=" +:+ url.QueryEscape Y)
      with ("access_token" +:+ String "=" (url.QueryEscape X +:+
              String "&" ("username" +:+ String "=" (url.QueryEscape Y)))).
    rewrite ParseQuery_pairs_escaped by (reflexivity || discriminate).
    destruct (Get_add_add "access_token" X "username" Y) as [-> ->]; [discriminate|].
    now rewrite (eqb_empty_false _ Hne).
  - intros X Y Hne ->.
    change ("username=" +:+ url.QueryEscape Y +:+ "&access_token=" +:+ url.QueryEscape X)
      with ("username" +:+ String "=" (url.QueryEscape Y +:+
              String "&" ("access_token" +:+ String "=" (url.QueryEscape X)))).
    rewrite ParseQuery_pairs_escaped by (reflexivity || discriminate).
    destruct (Get_add_add "username" Y "access_token" X) as [-> ->]; [discriminate|].
    now rewrite (eqb_empty_false _ Hne).
  - intros X Hne ->.
    change ("access_token=" +:+ url.QueryEscape X)
      with ("access_token" +:+ String "=" (url.QueryEscape X)).
    rewrite ParseQuery_one_escaped by (reflexivity || discriminate).
    unfold url.Get. rewrite lookup_singleton_eq, lookup_singleton_ne by discriminate.
    now rewrite (eqb_empty_false _ Hne).
  - intros X Y HX HY Hne ->.
    change ("access_token=" +:+ X +:+ "&username=" +:+ Y)
      with ("access_token" +:+ String "=" (X +:+ String "&" ("username" +:+ String "=" Y))).
    rewrite ParseQuery_two by (reflexivity || assumption || discriminate).
    rewrite Get_insert_eq, Get_insert_ne by discriminate.
    unfold url.Get at 1 2. rewrite lookup_singleton_eq.
    now rewrite (eqb_empty_false _ Hne).
  - intros ->. reflexivity.
  - intros ->. reflexivity.
  - intros ->. reflexivity.
  - intros ->. eexists. reflexivity.
  - intros ->. eexists. reflexivity.
Qed.

Lemma Authorize_status_200_witness :
  (http.run (Authorize (answering 200 ∅ "access_token=tok%2D1%26x&username=a+b")
               http.Background "token")).1
    = (Some (AuthorizeResponse.mk "tok-1&x" "a b"), None).
Proof.
  assert (Htoken : "token" <> "") by discriminate.
  assert (Hrecv : received (answering 200 ∅ "access_token=tok%2D1%26x&username=a+b")
                    http.Background endpointAuthorize
                    (authorizeRequest.mk "key" "token")
                    (http.Response.mk 200 ∅
                       (http.NewReader "access_token=tok%2D1%26x&username=a+b")))
    by (split; [discriminate | reflexivity]).
  destruct (Authorize_status_200 (answering 200 ∅ "access_token=tok%2D1%26x&username=a+b")
              http.Background "token"
              (http.Response.mk 200 ∅
                 (http.NewReader "access_token=tok%2D1%26x&username=a+b")) []
              Htoken Hrecv eq_refl eq_refl) as (Hgen & _).
  destruct (Hgen _ eq_refl) as (Hok & _).
  apply Hok. discriminate.
Defined.

(* ===================================================================== *)
(** ** Adding an item *)
(* ===================================================================== *)

(** C3 (as stated, it fails).  For a valid input and a response with status
    200 whose body is the single byte [%], [Add] returns the parse error:
    the content of the body makes it fail. *)
Lemma Add_fails_on_unparsable_body :
  AddInput.URL exampleInput <> "" /\
  AddInput.AccessToken exampleInput <> "" /\
  received (answering 200 ∅ "%") http.Background endpointAdd
    (generateRequest exampleInput "key")
    (http.Response.mk 200 ∅ (http.NewReader "%")) /\
  (http.run (Add (answering 200 ∅ "%") http.Background exampleInput)).1 =
    Some (errors.withMessage (errors.EscapeError "%") "failed to parse response body").
Proof.
  split; [discriminate|]. split; [discriminate|]. split; [|reflexivity].
  split; [discriminate | reflexivity].
Qed.

(** C3 (amended).  For every [AddInput] with a non-empty URL and a
    non-empty access token, [Add] returns success on a response with status
    200 exactly when the body of the response can be read to the end and
    parses as URL-encoded form values.  What was parsed is discarded
    ([Add] returns nothing but the error). *)
Theorem Add_status_200 (c : Client) (ctx : Context) (input : AddInput.t)
  (resp : http.Response.t) (tr : list http.Event) :
  AddInput.URL input <> "" ->
  AddInput.AccessToken input <> "" ->
  received c ctx endpointAdd (generateRequest input (consumerKey c)) resp ->
  http.Response.StatusCode resp = 200 ->
  ((Add c ctx input tr).1 = None <->
     http.readErr (http.Response.Body resp) = None /\
     (url.ParseQuery (http.content (http.Response.Body resp))).2 = None).
Proof.
  intros Hu Ht Hrecv Hstatus.
  destruct (http.readErr (http.Response.Body resp)) as [e|] eqn:Hread.
  - unfold Add. rewrite (validate_ok _ Hu Ht). io_step.
    rewrite (doHTTP_received _ _ _ _ resp Hrecv). cbv zeta.
    rewrite Hstatus, Hread. cbn. split; [discriminate | intros [? _]; discriminate].
  - rewrite (Add_200 _ _ _ _ Hstatus Hread _ Hu Ht Hrecv).
    destruct (url.ParseQuery _) as [values [e|]]; cbn;
      split; try tauto; try discriminate. intros [_ ?]; discriminate.
Qed.

Lemma Add_status_200_witness :
  (http.run (Add (answering 200 ∅ "") http.Background exampleInput)).1 = None.
Proof.
  apply (Add_status_200 (answering 200 ∅ "") http.Background exampleInput
           (http.Response.mk 200 ∅ (http.NewReader "")) []);
    try discriminate; try reflexivity.
  - split; [discriminate | reflexivity].
  - split; reflexivity.
Defined.

(* ===================================================================== *)
(** ** The statuses of the dispatch helper *)
(* ===================================================================== *)

(** C1 (as stated, it fails).  A response with status 200, which is in the
    2xx range, and with the body [%] makes [doHTTP] return an error: an
    error does not imply a status outside the 2xx range. *)
Lemma doHTTP_error_on_2xx :
  let resp := http.Response.mk 200 ∅ (http.NewReader "%") in
  let result :=
    (http.run (doHTTP (answering 200 ∅ "%") http.Background endpointAdd
                 (generateRequest exampleInput "key"))).1 in
  received (answering 200 ∅ "%") http.Background endpointAdd
    (generateRequest exampleInput "key") resp /\
  result = (∅, Some (errors.withMessage (errors.EscapeError "%")
                       "failed to parse response body")) /\
  ~ (result.2 <> None <-> ~ is2xx (http.Response.StatusCode resp)).
Proof.
  cbv zeta. split; [split; [discriminate | reflexivity]|].
  split; [reflexivity|].
  intros [Himp _]. apply Himp; [discriminate|].
  unfold is2xx. cbn. lia.
Qed.

(** C1 (amended).  For every response that [doHTTP] receives: when the
    status is 200, the body is read in full and parsed as URL-encoded form
    values, the values are returned when the reading and the parsing
    succeed, and an error is returned when either fails; when the status is
    outside the 2xx range, an error is returned whose text is [API Error: ]
    followed by the content of the response's [X-Error] header. *)
Theorem doHTTP_classifies_response {A} `{json.Struct A} (c : Client) (ctx : Context)
  (endpoint : string) (body : A) (resp : http.Response.t) (tr : list http.Event) :
  received c ctx endpoint body resp ->
  let result := (doHTTP c ctx endpoint body tr).1 in
  let log := (doHTTP c ctx endpoint body tr).2 in
  let rbody := http.Response.Body resp in
  (http.Response.StatusCode resp = 200 ->
     In (http.EvReadAll rbody) log /\
     (result.2 = None <->
        http.readErr rbody = None /\ (url.ParseQuery (http.content rbody)).2 = None) /\
     (result.2 = None -> result.1 = (url.ParseQuery (http.content rbody)).1)) /\
  (~ is2xx (http.Response.StatusCode resp) ->
     exists e, result = (∅, Some e) /\
       errors.Error e = "API Error: " +:+ http.Get (http.Response.Header resp) "X-Error").
Proof.
  intros Hrecv result log rbody. subst result log.
  rewrite (doHTTP_received _ _ _ _ resp Hrecv). cbv zeta. fold rbody.
  split.
  - intros ->. cbn [Z.eqb Pos.eqb negb].
    destruct (http.readErr rbody) as [e|].
    + cbn. split; [|split].
      * rewrite !in_app_iff. right. left. reflexivity.
      * split; [discriminate | intros [? _]; discriminate].
      * discriminate.
    + destruct (url.ParseQuery (http.content rbody)) as [values [e|]]; cbn;
        (split; [rewrite !in_app_iff; right; left; reflexivity|]);
        (split; [split; [try discriminate; tauto | intros [_ ?]; try discriminate; tauto]
                | try discriminate; tauto]).
  - intros Hnot.
    destruct (Z.eqb_spec (http.Response.StatusCode resp) 200) as [Heq|Hne].
    + exfalso. apply Hnot. unfold is2xx. lia.
    + cbn [negb fst]. eexists. split; reflexivity.
Qed.

Lemma doHTTP_classifies_response_witness :
  exists e,
    (http.run (doHTTP (answering 400 {[ "X-Error" := ["Bad request"] ]} "")
                 http.Background endpointAdd
                 (generateRequest exampleInput "key"))).1 = (∅, Some e) /\
    errors.Error e = "API Error: Bad request".
Proof.
  refine (proj2 (doHTTP_classifies_response
           (answering 400 {[ "X-Error" := ["Bad request"] ]} "")
           http.Background endpointAdd (generateRequest exampleInput "key")
           (http.Response.mk 400 {[ "X-Error" := ["Bad request"] ]} (http.NewReader ""))
           [] _) _).
  - split; [discriminate | reflexivity].
  - unfold is2xx. cbn. lia.
Defined.

(** The guard of [doHTTP] compares the status with 200 alone: a response
    with status 201 takes the API-error branch, its body is not read. *)
Example doHTTP_status_201 :
  http.run (doHTTP (answering 201 ∅ "code=ABC") http.Background endpointRequestToken
              (requestTokenRequest.mk "key" "http://localhost:80/")) =
    ((∅, Some (errors.New "API Error: ")),
     [ http.EvNewRequest
         (http.Request.mk "POST" "https://getpocket.com/v3/oauth/request" ∅
            (json.Object [("consumer_key", "key");
                          ("redirect_uri", "http://localhost:80/")])
            http.Background);
       http.EvDo
         (http.Request.mk "POST" "https://getpocket.com/v3/oauth/request"
            {[ "Content-Type" := ["application/json; charset=UTF8"] ]}
            (json.Object [("consumer_key", "key");
                          ("redirect_uri", "http://localhost:80/")])
            http.Background);
       http.EvClose (http.NewReader "code=ABC") ]).
Proof. vm_compute. reflexivity. Qed.

(* ===================================================================== *)
(** ** Validation comes before any I/O *)
(* ===================================================================== *)

(** C9. [Authorize] with an empty request token, and [Add] with an empty
    URL or an empty access token, return their validation error and leave
    the log of events as it was: no request is built, none is executed. *)
Theorem validation_errors_precede_io (c : Client) (ctx : Context)
  (tr : list http.Event) :
  Authorize c ctx "" tr = ((None, Some (errors.New "empty request token")), tr) /\
  (forall input,
     AddInput.URL input = "" \/ AddInput.AccessToken input = "" ->
     exists e, Add c ctx input tr = (Some e, tr)).
Proof.
  split; [reflexivity|].
  intros input Hempty. unfold Add, validate.
  destruct (String.eqb_spec (AddInput.URL input) "") as [Hu|Hu]; [eexists; reflexivity|].
  destruct (String.eqb_spec (AddInput.AccessToken input) "") as [Ht|Ht];
    [eexists; reflexivity|].
  destruct Hempty; contradiction.
Qed.

Lemma validation_errors_precede_io_witness :
  exists e,
    http.run (Add (answering 200 ∅ "") http.Background
                (AddInput.mk "http://example.link" "" [] "")) = (Some e, []).
Proof.
  apply (proj2 (validation_errors_precede_io (answering 200 ∅ "") http.Background [])).
  right. reflexivity.
Defined.

(* ===================================================================== *)
(** ** The dispatch helper on every path *)
(* ===================================================================== *)

(** With a nil context nothing is built and nothing is sent. *)
Lemma doHTTP_nil {A} `{json.Struct A} (c : Client) (endpoint : string) (body : A)
  (tr : list http.Event) :
  doHTTP c http.nilContext endpoint body tr =
    ((∅, Some (errors.withMessage (errors.errorString "net/http: nil Context")
                 "failed to send http request")), tr).
Proof. reflexivity. Qed.

(** When the client fails, its error is wrapped and nothing is read. *)
Lemma doHTTP_failed {A} `{json.Struct A} (c : Client) (ctx : Context)
  (endpoint : string) (body : A) (err : error) (tr : list http.Event) :
  ctx <> http.nilContext ->
  http.Transport (client c) (builtRequest ctx endpoint body) = inr err ->
  doHTTP c ctx endpoint body tr =
    ((∅, Some (errors.withMessage err "failed to send message request")),
     tr ++ [http.EvNewRequest (newRequest ctx endpoint body);
            http.EvDo (builtRequest ctx endpoint body)]).
Proof.
  intros Hctx Htr. unfold doHTTP. destruct ctx as [|d cancelled]; [contradiction|].
  unfold builtRequest, newRequest in *. cbn [json.Marshal fst] in *.
  io_step. rewrite Htr. cbn. rewrite <- !app_assoc. reflexivity.
Qed.

(** The three ways a call of [doHTTP] can go. *)
Lemma doHTTP_cases {A} `{json.Struct A} (c : Client) (ctx : Context)
  (endpoint : string) (body : A) :
  ctx = http.nilContext \/
  (ctx <> http.nilContext /\
   exists err, http.Transport (client c) (builtRequest ctx endpoint body) = inr err) \/
  (exists resp, received c ctx endpoint body resp).
Proof.
  destruct ctx as [|d cancelled]; [now left|]. right.
  destruct (http.Transport (client c)
              (builtRequest (http.ctx d cancelled) endpoint body)) as [resp|err] eqn:Htr.
  - right. exists resp. split; [discriminate | exact Htr].
  - left. split; [discriminate | eauto].
Qed.

(** X1. With a nil context [doHTTP] fails before anything is built or sent:
    the error reads [failed to send http request: net/http: nil Context],
    the value map is empty and the log is as it was. *)
Theorem doHTTP_nil_context {A} `{json.Struct A} (c : Client) (endpoint : string)
  (body : A) (tr : list http.Event) :
  exists e,
    doHTTP c http.nilContext endpoint body tr = ((∅, Some e), tr) /\
    errors.Error e = "failed to send http request: net/http: nil Context".
Proof. eexists. split; reflexivity. Qed.

(** X2. When the client returns an error instead of a response, [doHTTP]
    returns that error wrapped, with the text [failed to send message
    request: ] before the client's own text, and an empty value map; the
    request was built and handed to the client once, nothing is read and
    nothing is closed. *)
Theorem doHTTP_transport_error {A} `{json.Struct A} (c : Client) (ctx : Context)
  (endpoint : string) (body : A) (err : error) (tr : list http.Event) :
  ctx <> http.nilContext ->
  http.Transport (client c) (builtRequest ctx endpoint body) = inr err ->
  exists e,
    doHTTP c ctx endpoint body tr =
      ((∅, Some e),
       tr ++ [http.EvNewRequest (newRequest ctx endpoint body);
              http.EvDo (builtRequest ctx endpoint body)]) /\
    errors.Error e = "failed to send message request: " +:+ errors.Error err.
Proof.
  intros Hctx Htr. eexists.
  split; [exact (doHTTP_failed _ _ _ _ err tr Hctx Htr) | reflexivity].
Qed.

Lemma doHTTP_transport_error_witness :
  exists e,
    http.run (doHTTP
      {| client := http.mkClient (fun _ => inr (errors.errorString "timeout")) 0;
         consumerKey := "key" |}
      http.Background endpointAdd (generateRequest exampleInput "key")) =
      ((∅, Some e),
       [http.EvNewRequest
          (newRequest http.Background endpointAdd (generateRequest exampleInput "key"));
        http.EvDo
          (builtRequest http.Background endpointAdd (generateRequest exampleInput "key"))])
    /\ errors.Error e = "failed to send message request: timeout".
Proof.
  apply (doHTTP_transport_error
           {| client := http.mkClient (fun _ => inr (errors.errorString "timeout")) 0;
              consumerKey := "key" |}
           http.Background endpointAdd (generateRequest exampleInput "key")
           (errors.errorString "timeout") []).
  - discriminate.
  - reflexivity.
Defined.

(** X3. Whenever [doHTTP] returns an error, the value map it returns with
    it is empty: the pairs that [url.ParseQuery] decoded before it met a
    malformed one are not passed on. *)
Theorem doHTTP_error_has_no_values {A} `{json.Struct A} (c : Client) (ctx : Context)
  (endpoint : string) (body : A) (tr : list http.Event) :
  (doHTTP c ctx endpoint body tr).1.2 <> None ->
  (doHTTP c ctx endpoint body tr).1.1 = ∅.
Proof.
  destruct (doHTTP_cases c ctx endpoint body) as [-> | [[Hctx [err Htr]] | [resp Hrecv]]].
  - reflexivity.
  - now rewrite (doHTTP_failed _ _ _ _ err tr Hctx Htr).
  - rewrite (doHTTP_received _ _ _ _ resp Hrecv). cbv zeta.
    destruct (negb _); [reflexivity|].
    destruct (http.readErr _); [reflexivity|].
    destruct (url.ParseQuery _) as [values [e|]]; [reflexivity|].
    intros Hne. now contradiction Hne.
Qed.

Lemma doHTTP_error_has_no_values_witness :
  (url.ParseQuery "code=ABC&%").1 = {[ "code" := ["ABC"] ]} /\
  (http.run (doHTTP (answering 200 ∅ "code=ABC&%") http.Background endpointRequestToken
               (requestTokenRequest.mk "key" "http://localhost:80/"))).1.1 = ∅.
Proof.
  split; [reflexivity|].
  apply (doHTTP_error_has_no_values (answering 200 ∅ "code=ABC&%") http.Background
           endpointRequestToken (requestTokenRequest.mk "key" "http://localhost:80/") []).
  discriminate.
Defined.

(** X4. Once [doHTTP] holds a response, it closes the body of that response
    as the last thing it does, whatever the status and whether or not the
    reading and the parsing succeed; it reads the body only under status
    200, and once. *)
Theorem doHTTP_closes_body {A} `{json.Struct A} (c : Client) (ctx : Context)
  (endpoint : string) (body : A) (resp : http.Response.t) (tr : list http.Event) :
  received c ctx endpoint body resp ->
  (doHTTP c ctx endpoint body tr).2 =
    tr ++ [http.EvNewRequest (newRequest ctx endpoint body);
           http.EvDo (builtRequest ctx endpoint body)]
       ++ responseEvents resp.
Proof.
  intros Hrecv. rewrite (doHTTP_received _ _ _ _ resp Hrecv). cbv zeta.
  unfold responseEvents, newRequest.
  destruct (http.Response.StatusCode resp =? 200); cbn [negb].
  - destruct (http.readErr _); [|destruct (url.ParseQuery _) as [values [e|]]];
      cbn [snd]; now rewrite <- !app_assoc.
  - cbn [snd]. now rewrite <- !app_assoc.
Qed.

Lemma doHTTP_closes_body_witness :
  (http.run (doHTTP (answering 500 ∅ "busy") http.Background endpointAdd
               (generateRequest exampleInput "key"))).2 =
    [http.EvNewRequest
       (newRequest http.Background endpointAdd (generateRequest exampleInput "key"));
     http.EvDo
       (builtRequest http.Background endpointAdd (generateRequest exampleInput "key"));
     http.EvClose (http.NewReader "busy")].
Proof.
  apply (doHTTP_closes_body (answering 500 ∅ "busy") http.Background endpointAdd
           (generateRequest exampleInput "key")
           (http.Response.mk 500 ∅ (http.NewReader "busy")) []).
  split; [discriminate | reflexivity].
Defined.

(** X5. Whenever the context is not nil, [doHTTP] builds one request and
    hands it to the client exactly once: a POST to [host] followed by the
    endpoint, under the caller's context, with the marshalled body and the
    single header [Content-Type: application/json; charset=UTF8].  Nothing
    it does afterwards is another exchange: there is no retry. *)
Theorem doHTTP_one_exchange {A} `{json.Struct A} (c : Client) (ctx : Context)
  (endpoint : string) (body : A) (tr : list http.Event) :
  ctx <> http.nilContext ->
  exists rest,
    (doHTTP c ctx endpoint body tr).2 =
      tr ++ [http.EvNewRequest (newRequest ctx endpoint body);
             http.EvDo
               (http.Request.mk "POST" ("https://getpocket.com/v3" +:+ endpoint)
                  {[ "Content-Type" := ["application/json; charset=UTF8"] ]}
                  (json.Object (json.encodeFields (json.structFields body))) ctx)]
         ++ rest /\
    exchanges rest = 0%nat.
Proof.
  intros Hctx.
  destruct (doHTTP_cases c ctx endpoint body) as [-> | [[_ [err Htr]] | [resp Hrecv]]].
  - contradiction.
  - exists []. rewrite (doHTTP_failed _ _ _ _ err tr Hctx Htr).
    split; [|reflexivity]. now rewrite app_nil_r.
  - exists (responseEvents resp). rewrite (doHTTP_closes_body _ _ _ _ resp tr Hrecv).
    split; [reflexivity|].
    unfold responseEvents. now destruct (http.Response.StatusCode resp =? 200).
Qed.

Lemma doHTTP_one_exchange_witness :
  exists rest,
    (http.run (doHTTP (answering 200 ∅ "code=ABC") http.Background endpointRequestToken
                 (requestTokenRequest.mk "key" "http://localhost:80/"))).2 =
      [http.EvNewRequest
         (newRequest http.Background endpointRequestToken
            (requestTokenRequest.mk "key" "http://localhost:80/"));
       http.EvDo
         (http.Request.mk "POST" "https://getpocket.com/v3/oauth/request"
            {[ "Content-Type" := ["application/json; charset=UTF8"] ]}
            (json.Object [("consumer_key", "key");
                          ("redirect_uri", "http://localhost:80/")])
            http.Background)]
      ++ rest /\
    exchanges rest = 0%nat.
Proof.
  assert (Hctx : http.Background <> http.nilContext) by discriminate.
  pose proof (doHTTP_one_exchange (answering 200 ∅ "code=ABC") http.Background
                endpointRequestToken
                (requestTokenRequest.mk "key" "http://localhost:80/") [] Hctx) as Hw.
  vm_compute in Hw. vm_compute. exact Hw.
Defined.

(* ===================================================================== *)
(** ** The operations in terms of the dispatch helper *)
(* ===================================================================== *)

Lemma GetRequestToken_of_doHTTP (c : Client) (ctx : Context) (redirectUrl : string)
  (tr : list http.Event) :
  GetRequestToken c ctx redirectUrl tr =
    let d := doHTTP c ctx endpointRequestToken
               (requestTokenRequest.mk (consumerKey c) redirectUrl) tr in
    (match d.1.2 with
     | Some e => ("", Some e)
     | None =>
         if String.eqb (url.Get d.1.1 "code") "" then
           ("", Some (errors.New "empty request token in API response"))
         else (url.Get d.1.1 "code", None)
     end, d.2).
Proof.
  unfold GetRequestToken. io_step.
  destruct (doHTTP _ _ _ _ _) as [[values [e|]] tr']; cbn; [reflexivity|].
  destruct (String.eqb _ ""); reflexivity.
Qed.

Lemma Authorize_of_doHTTP (c : Client) (ctx : Context) (requestToken : string)
  (tr : list http.Event) :
  requestToken <> "" ->
  Authorize c ctx requestToken tr =
    let d := doHTTP c ctx endpointAuthorize
               (authorizeRequest.mk (consumerKey c) requestToken) tr in
    (match d.1.2 with
     | Some e => (None, Some e)
     | None =>
         if String.eqb (url.Get d.1.1 "access_token") "" then
           (None, Some (errors.New "empty access token in API response"))
         else
           (Some (AuthorizeResponse.mk (url.Get d.1.1 "access_token")
                    (url.Get d.1.1 "username")), None)
     end, d.2).
Proof.
  intros Htoken. unfold Authorize. rewrite (eqb_empty_false _ Htoken). io_step.
  destruct (doHTTP _ _ _ _ _) as [[values [e|]] tr']; cbn; [reflexivity|].
  destruct (String.eqb _ ""); reflexivity.
Qed.

Lemma Add_of_doHTTP (c : Client) (ctx : Context) (input : AddInput.t)
  (tr : list http.Event) :
  AddInput.URL input <> "" -> AddInput.AccessToken input <> "" ->
  Add c ctx input tr =
    let d := doHTTP c ctx endpointAdd (generateRequest input (consumerKey c)) tr in
    (d.1.2, d.2).
Proof.
  intros Hu Ht. unfold Add. rewrite (validate_ok _ Hu Ht). io_step.
  destruct (doHTTP _ _ _ _ _) as [[values err] tr']. reflexivity.
Qed.

(** [doHTTP] returns no error only on a response with status 200 whose
    body is read and parsed, and then returns the parsed values. *)
Lemma doHTTP_success_inv {A} `{json.Struct A} (c : Client) (ctx : Context)
  (endpoint : string) (body : A) (tr : list http.Event) (values : url.Values) :
  (doHTTP c ctx endpoint body tr).1 = (values, None) <->
  exists resp,
    received c ctx endpoint body resp /\
    http.Response.StatusCode resp = 200 /\
    http.readErr (http.Response.Body resp) = None /\
    url.ParseQuery (http.content (http.Response.Body resp)) = (values, None).
Proof.
  split.
  - destruct (doHTTP_cases c ctx endpoint body) as [-> | [[Hctx [err Htr]] | [resp Hrecv]]].
    + discriminate.
    + now rewrite (doHTTP_failed _ _ _ _ err tr Hctx Htr).
    + rewrite (doHTTP_received _ _ _ _ resp Hrecv). cbv zeta.
      destruct (Z.eqb_spec (http.Response.StatusCode resp) 200) as [Hst|Hst];
        cbn [negb]; [|discriminate].
      destruct (http.readErr _) eqn:Hread; [discriminate|].
      destruct (url.ParseQuery _) as [values' [e|]] eqn:Hparse; [discriminate|].
      cbn [fst]. intros [= ->]. exists resp. auto.
  - intros (resp & Hrecv & Hst & Hread & Hparse).
    rewrite (doHTTP_received _ _ _ _ resp Hrecv). cbv zeta.
    now rewrite Hst, Hread, Hparse.
Qed.

Lemma doHTTP_value_or_error {A} `{json.Struct A} (c : Client) (ctx : Context)
  (endpoint : string) (body : A) (tr : list http.Event) :
  (exists values, (doHTTP c ctx endpoint body tr).1 = (values, None)) \/
  (exists e, (doHTTP c ctx endpoint body tr).1 = (∅, Some e)).
Proof.
  destruct (doHTTP c ctx endpoint body tr) as [[values [e|]] tr'] eqn:Hd.
  - right. exists e. cbn.
    pose proof (doHTTP_error_has_no_values c ctx endpoint body tr) as Hempty.
    rewrite Hd in Hempty. cbn in Hempty. now rewrite Hempty.
  - left. eauto.
Qed.

(* ===================================================================== *)
(** ** When the operations succeed *)
(* ===================================================================== *)

(** X10. [GetRequestToken] returns a token without error in one case only:
    the client answered with status 200, the body was read to the end and
    parsed, and the first value under [code] is not empty; the token is
    that value.  In every other case (nil context, failing client, other
    status, unreadable or malformed body, no code) it returns an error. *)
Theorem GetRequestToken_success_iff (c : Client) (ctx : Context) (redirectUrl : string)
  (tr : list http.Event) (token : string) :
  (GetRequestToken c ctx redirectUrl tr).1 = (token, None) <->
  exists resp values,
    received c ctx endpointRequestToken
      (requestTokenRequest.mk (consumerKey c) redirectUrl) resp /\
    http.Response.StatusCode resp = 200 /\
    http.readErr (http.Response.Body resp) = None /\
    url.ParseQuery (http.content (http.Response.Body resp)) = (values, None) /\
    url.Get values "code" = token /\ token <> "".
Proof.
  rewrite GetRequestToken_of_doHTTP. cbv zeta. cbn [fst].
  split.
  - destruct (doHTTP _ _ _ _ _) as [[values [e|]] tr'] eqn:Hd; cbn [fst snd];
      [discriminate|].
    destruct (String.eqb_spec (url.Get values "code") "") as [Hc|Hc]; [discriminate|].
    intros [= <-].
    assert (Hd' : (doHTTP c ctx endpointRequestToken
                     (requestTokenRequest.mk (consumerKey c) redirectUrl) tr).1
                  = (values, None)) by now rewrite Hd.
    apply doHTTP_success_inv in Hd' as (resp & Hrecv & Hst & Hread & Hparse).
    exists resp, values. auto 10.
  - intros (resp & values & Hrecv & Hst & Hread & Hparse & Hget & Hne).
    assert (Hd : (doHTTP c ctx endpointRequestToken
                    (requestTokenRequest.mk (consumerKey c) redirectUrl) tr).1
                 = (values, None)) by (apply doHTTP_success_inv; eauto).
    rewrite Hd. cbn [fst snd]. rewrite Hget, (eqb_empty_false _ Hne). reflexivity.
Qed.

(** X11. [GetRequestToken] never returns an empty token as a success nor a
    token beside an error: either the error is nil and the token is not
    empty, or there is an error and the token is the empty string. *)
Theorem GetRequestToken_token_xor_error (c : Client) (ctx : Context)
  (redirectUrl : string) (tr : list http.Event) :
  (exists token, (GetRequestToken c ctx redirectUrl tr).1 = (token, None) /\ token <> "") \/
  (exists e, (GetRequestToken c ctx redirectUrl tr).1 = ("", Some e)).
Proof.
  rewrite GetRequestToken_of_doHTTP. cbv zeta. cbn [fst].
  destruct (doHTTP _ _ _ _ _) as [[values [e|]] tr']; cbn [fst snd]; [right; eauto|].
  destruct (String.eqb_spec (url.Get values "code") "") as [Hc|Hc]; [right; eauto|].
  left. eauto.
Qed.

(** X12. [Authorize] with a non-empty request token returns a response
    without error in one case only: the client answered with status 200,
    the body was read to the end and parsed, and the first value under
    [access_token] is not empty; the response holds that value and the
    first value under [username]. *)
Theorem Authorize_success_iff (c : Client) (ctx : Context) (requestToken : string)
  (tr : list http.Event) (r : AuthorizeResponse.t) :
  requestToken <> "" ->
  ((Authorize c ctx requestToken tr).1 = (Some r, None) <->
   exists resp values,
     received c ctx endpointAuthorize
       (authorizeRequest.mk (consumerKey c) requestToken) resp /\
     http.Response.StatusCode resp = 200 /\
     http.readErr (http.Response.Body resp) = None /\
     url.ParseQuery (http.content (http.Response.Body resp)) = (values, None) /\
     url.Get values "access_token" <> "" /\
     r = AuthorizeResponse.mk (url.Get values "access_token") (url.Get values "username")).
Proof.
  intros Htoken. rewrite (Authorize_of_doHTTP _ _ _ _ Htoken). cbv zeta. cbn [fst].
  split.
  - destruct (doHTTP _ _ _ _ _) as [[values [e|]] tr'] eqn:Hd; cbn [fst snd];
      [discriminate|].
    destruct (String.eqb_spec (url.Get values "access_token") "") as [Hc|Hc];
      [discriminate|].
    intros [= <-].
    assert (Hd' : (doHTTP c ctx endpointAuthorize
                     (authorizeRequest.mk (consumerKey c) requestToken) tr).1
                  = (values, None)) by now rewrite Hd.
    apply doHTTP_success_inv in Hd' as (resp & Hrecv & Hst & Hread & Hparse).
    exists resp, values. auto 10.
  - intros (resp & values & Hrecv & Hst & Hread & Hparse & Hne & ->).
    assert (Hd : (doHTTP c ctx endpointAuthorize
                    (authorizeRequest.mk (consumerKey c) requestToken) tr).1
                 = (values, None)) by (apply doHTTP_success_inv; eauto).
    rewrite Hd. cbn [fst snd]. rewrite (eqb_empty_false _ Hne). reflexivity.
Qed.

Lemma Authorize_success_iff_witness :
  (http.run (Authorize (answering 200 ∅ "access_token=X") http.Background "token")).1
    = (Some (AuthorizeResponse.mk "X" ""), None).
Proof.
  assert (Htoken : "token" <> "") by discriminate.
  apply (proj2 (Authorize_success_iff (answering 200 ∅ "access_token=X")
                  http.Background "token" [] (AuthorizeResponse.mk "X" "") Htoken)).
  exists (http.Response.mk 200 ∅ (http.NewReader "access_token=X")),
         {[ "access_token" := ["X"] ]}.
  repeat split; try reflexivity; discriminate.
Defined.

(** X13. [Authorize] returns either a response and no error, and then the
    access token in the response is not empty, or no response and an
    error; it never returns both or neither. *)
Theorem Authorize_response_xor_error (c : Client) (ctx : Context)
  (requestToken : string) (tr : list http.Event) :
  (exists r, (Authorize c ctx requestToken tr).1 = (Some r, None) /\
             AuthorizeResponse.Access_token r <> "") \/
  (exists e, (Authorize c ctx requestToken tr).1 = (None, Some e)).
Proof.
  destruct (String.eqb_spec requestToken "") as [-> | Htoken]; [right; eexists; reflexivity|].
  rewrite (Authorize_of_doHTTP _ _ _ _ Htoken). cbv zeta. cbn [fst].
  destruct (doHTTP _ _ _ _ _) as [[values [e|]] tr']; cbn [fst snd]; [right; eauto|].
  destruct (String.eqb_spec (url.Get values "access_token") "") as [Hc|Hc];
    [right; eauto|].
  left. eexists. split; [reflexivity | exact Hc].
Qed.

(** X14. [Add] returns no error exactly when the URL and the access token of
    the input are not empty, the client answered with status 200 and the
    body of the answer was read to the end and parsed without error. *)
Theorem Add_success_iff (c : Client) (ctx : Context) (input : AddInput.t)
  (tr : list http.Event) :
  (Add c ctx input tr).1 = None <->
  AddInput.URL input <> "" /\ AddInput.AccessToken input <> "" /\
  exists resp,
    received c ctx endpointAdd (generateRequest input (consumerKey c)) resp /\
    http.Response.StatusCode resp = 200 /\
    http.readErr (http.Response.Body resp) = None /\
    (url.ParseQuery (http.content (http.Response.Body resp))).2 = None.
Proof.
  destruct (String.eqb_spec (AddInput.URL input) "") as [Hu|Hu].
  { unfold Add, validate. rewrite Hu. cbn. split; [discriminate | tauto]. }
  destruct (String.eqb_spec (AddInput.AccessToken input) "") as [Ht|Ht].
  { unfold Add, validate. rewrite (eqb_empty_false _ Hu), Ht. cbn.
    split; [discriminate | tauto]. }
  rewrite (Add_of_doHTTP _ _ _ _ Hu Ht). cbv zeta. cbn [fst].
  split.
  - intros Hnone.
    destruct (doHTTP c ctx endpointAdd (generateRequest input (consumerKey c)) tr)
      as [[values err] tr'] eqn:Hd. cbn in Hnone. subst err.
    assert (Hd' : (doHTTP c ctx endpointAdd (generateRequest input (consumerKey c)) tr).1
                  = (values, None)) by now rewrite Hd.
    apply doHTTP_success_inv in Hd' as (resp & Hrecv & Hst & Hread & Hparse).
    repeat split; try assumption. exists resp. rewrite Hparse. auto.
  - intros (_ & _ & resp & Hrecv & Hst & Hread & Hparse).
    destruct (url.ParseQuery (http.content (http.Response.Body resp)))
      as [values perr] eqn:Hq. cbn in Hparse. subst perr.
    assert (Hd : (doHTTP c ctx endpointAdd (generateRequest input (consumerKey c)) tr).1
                 = (values, None)) by (apply doHTTP_success_inv; eauto).
    now rewrite Hd.
Qed.

(* ===================================================================== *)
(** ** How failures reach the caller *)
(* ===================================================================== *)

(** X8. A response with any status other than 200 makes each of the three
    network operations fail with the error text [API Error: ] followed by
    the first value of the response's [X-Error] header; the body of the
    response plays no part. *)
Theorem api_error_reaches_caller (c : Client) (ctx : Context) (resp : http.Response.t)
  (tr : list http.Event) :
  http.Response.StatusCode resp <> 200 ->
  let text := "API Error: " +:+ http.Get (http.Response.Header resp) "X-Error" in
  (forall redirectUrl,
     received c ctx endpointRequestToken
       (requestTokenRequest.mk (consumerKey c) redirectUrl) resp ->
     exists e, (GetRequestToken c ctx redirectUrl tr).1 = ("", Some e) /\
               errors.Error e = text) /\
  (forall requestToken, requestToken <> "" ->
     received c ctx endpointAuthorize
       (authorizeRequest.mk (consumerKey c) requestToken) resp ->
     exists e, (Authorize c ctx requestToken tr).1 = (None, Some e) /\
               errors.Error e = text) /\
  (forall input, AddInput.URL input <> "" -> AddInput.AccessToken input <> "" ->
     received c ctx endpointAdd (generateRequest input (consumerKey c)) resp ->
     exists e, (Add c ctx input tr).1 = Some e /\ errors.Error e = text).
Proof.
  intros Hst text.
  assert (Hneq : negb (http.Response.StatusCode resp =? 200) = true)
    by (apply negb_true_iff; now apply Z.eqb_neq).
  split; [|split].
  - intros redirectUrl Hrecv. rewrite GetRequestToken_of_doHTTP.
    rewrite (doHTTP_received _ _ _ _ resp Hrecv). cbv zeta. rewrite Hneq.
    eexists. split; reflexivity.
  - intros requestToken Htoken Hrecv. rewrite (Authorize_of_doHTTP _ _ _ _ Htoken).
    rewrite (doHTTP_received _ _ _ _ resp Hrecv). cbv zeta. rewrite Hneq.
    eexists. split; reflexivity.
  - intros input Hu Ht Hrecv. rewrite (Add_of_doHTTP _ _ _ _ Hu Ht).
    rewrite (doHTTP_received _ _ _ _ resp Hrecv). cbv zeta. rewrite Hneq.
    eexists. split; reflexivity.
Qed.

Lemma api_error_reaches_caller_witness :
  exists e,
    (http.run (Add (answering 403 {[ "X-Error" := ["Forbidden"; "again"] ]} "")
                 http.Background exampleInput)).1 = Some e /\
    errors.Error e = "API Error: Forbidden".
Proof.
  assert (Hst : 403 <> 200) by discriminate.
  refine (proj2 (proj2 (api_error_reaches_caller
            (answering 403 {[ "X-Error" := ["Forbidden"; "again"] ]} "")
            http.Background
            (http.Response.mk 403 {[ "X-Error" := ["Forbidden"; "again"] ]}
               (http.NewReader ""))
            [] Hst)) exampleInput _ _ _); try discriminate.
  split; [discriminate | reflexivity].
Defined.

(** X7. When the response carries no [X-Error] header, the API error of a
    status other than 200 is the bare text [API Error: ]; when it carries
    several values, the first one is quoted. *)
Theorem api_error_header_value {A} `{json.Struct A} (c : Client) (ctx : Context)
  (endpoint : string) (body : A) (resp : http.Response.t) (tr : list http.Event) :
  received c ctx endpoint body resp ->
  http.Response.StatusCode resp <> 200 ->
  (http.Response.Header resp !! "X-Error" = None ->
     (doHTTP c ctx endpoint body tr).1 = (∅, Some (errors.New "API Error: "))) /\
  (forall v vs, http.Response.Header resp !! "X-Error" = Some (v :: vs) ->
     (doHTTP c ctx endpoint body tr).1 = (∅, Some (errors.New ("API Error: " +:+ v)))).
Proof.
  intros Hrecv Hst.
  assert (Hneq : negb (http.Response.StatusCode resp =? 200) = true)
    by (apply negb_true_iff; now apply Z.eqb_neq).
  rewrite (doHTTP_received _ _ _ _ resp Hrecv). cbv zeta. rewrite Hneq. cbn [fst].
  unfold http.Get.
  change (http.CanonicalMIMEHeaderKey xErrorHeader) with "X-Error".
  split.
  - intros ->. reflexivity.
  - intros v vs ->. reflexivity.
Qed.

Lemma api_error_header_value_witness :
  (http.run (doHTTP (answering 400 ∅ "") http.Background endpointAdd
               (generateRequest exampleInput "key"))).1
    = (∅, Some (errors.New "API Error: ")).
Proof.
  assert (Hst : 400 <> 200) by discriminate.
  refine (proj1 (api_error_header_value (answering 400 ∅ "") http.Background endpointAdd
                   (generateRequest exampleInput "key")
                   (http.Response.mk 400 ∅ (http.NewReader "")) [] _ Hst) _).
  - split; [discriminate | reflexivity].
  - reflexivity.
Defined.

(** X9. When the client returns an error instead of a response, each of the
    three network operations returns that error wrapped under the message
    [failed to send message request]; with a nil context each returns the
    wrapped [net/http: nil Context] error and leaves the log as it was. *)
Theorem transport_error_reaches_caller (c : Client) (ctx : Context)
  (tr : list http.Event) :
  (forall redirectUrl err, ctx <> http.nilContext ->
     http.Transport (client c)
       (builtRequest ctx endpointRequestToken
          (requestTokenRequest.mk (consumerKey c) redirectUrl)) = inr err ->
     (GetRequestToken c ctx redirectUrl tr).1 =
       ("", Some (errors.withMessage err "failed to send message request"))) /\
  (forall requestToken err, requestToken <> "" -> ctx <> http.nilContext ->
     http.Transport (client c)
       (builtRequest ctx endpointAuthorize
          (authorizeRequest.mk (consumerKey c) requestToken)) = inr err ->
     (Authorize c ctx requestToken tr).1 =
       (None, Some (errors.withMessage err "failed to send message request"))) /\
  (forall input err, AddInput.URL input <> "" -> AddInput.AccessToken input <> "" ->
     ctx <> http.nilContext ->
     http.Transport (client c)
       (builtRequest ctx endpointAdd (generateRequest input (consumerKey c))) = inr err ->
     (Add c ctx input tr).1 =
       Some (errors.withMessage err "failed to send message request")) /\
  (forall redirectUrl,
     GetRequestToken c http.nilContext redirectUrl tr =
       (("", Some (errors.withMessage (errors.errorString "net/http: nil Context")
                     "failed to send http request")), tr)) /\
  (forall requestToken, requestToken <> "" ->
     Authorize c http.nilContext requestToken tr =
       ((None, Some (errors.withMessage (errors.errorString "net/http: nil Context")
                       "failed to send http request")), tr)) /\
  (forall input, AddInput.URL input <> "" -> AddInput.AccessToken input <> "" ->
     Add c http.nilContext input tr =
       (Some (errors.withMessage (errors.errorString "net/http: nil Context")
                "failed to send http request"), tr)).
Proof.
  repeat split.
  - intros redirectUrl err Hctx Htr. rewrite GetRequestToken_of_doHTTP.
    now rewrite (doHTTP_failed _ _ _ _ err tr Hctx Htr).
  - intros requestToken err Htoken Hctx Htr. rewrite (Authorize_of_doHTTP _ _ _ _ Htoken).
    now rewrite (doHTTP_failed _ _ _ _ err tr Hctx Htr).
  - intros input err Hu Ht Hctx Htr. rewrite (Add_of_doHTTP _ _ _ _ Hu Ht).
    now rewrite (doHTTP_failed _ _ _ _ err tr Hctx Htr).
  - intros requestToken Htoken. now rewrite (Authorize_of_doHTTP _ _ _ _ Htoken).
  - intros input Hu Ht. now rewrite (Add_of_doHTTP _ _ _ _ Hu Ht).
Qed.

Lemma transport_error_reaches_caller_witness :
  (http.run (GetRequestToken
     {| client := http.mkClient (fun _ => inr (errors.errorString "i/o timeout")) 0;
        consumerKey := "key" |} http.Background "http://localhost:80/")).1 =
    ("", Some (errors.withMessage (errors.errorString "i/o timeout")
                 "failed to send message request")).
Proof.
  apply (proj1 (transport_error_reaches_caller
     {| client := http.mkClient (fun _ => inr (errors.errorString "i/o timeout")) 0;
        consumerKey := "key" |} http.Background [])).
  - discriminate.
  - reflexivity.
Defined.

(* ===================================================================== *)
(** ** What each operation sends *)
(* ===================================================================== *)

Lemma op_log (c : Client) {A} `{json.Struct A} (ctx : Context) (endpoint : string)
  (body : A) (tr : list http.Event) (url : string) (members : list (string * string)) :
  ctx <> http.nilContext ->
  "https://getpocket.com/v3" +:+ endpoint = url ->
  json.encodeFields (json.structFields body) = members ->
  exists rest,
    (doHTTP c ctx endpoint body tr).2 =
      tr ++ [http.EvNewRequest
               (http.Request.mk "POST" url ∅ (json.Object members) ctx);
             http.EvDo
               (http.Request.mk "POST" url
                  {[ "Content-Type" := ["application/json; charset=UTF8"] ]}
                  (json.Object members) ctx)] ++ rest /\
    exchanges rest = 0%nat.
Proof.
  intros Hctx <- <-.
  destruct (doHTTP_one_exchange c ctx endpoint body tr Hctx) as (rest & Hlog & Hex).
  exists rest. split; [exact Hlog | exact Hex].
Qed.

(** X15. With a context that is not nil, [GetRequestToken] performs exactly
    one exchange: a POST to [https://getpocket.com/v3/oauth/request] whose
    JSON has the two members [consumer_key], for the client's key, and
    [redirect_uri], for the redirect URL (empty or not); each holds its
    string as the encoder writes it, every byte that is not valid UTF-8
    replaced by U+FFFD. *)
Theorem GetRequestToken_sends (c : Client) (ctx : Context) (redirectUrl : string)
  (tr : list http.Event) :
  ctx <> http.nilContext ->
  exists rest,
    (GetRequestToken c ctx redirectUrl tr).2 =
      tr ++ [http.EvNewRequest
               (http.Request.mk "POST" "https://getpocket.com/v3/oauth/request" ∅
                  (json.Object [("consumer_key", json.coerce (consumerKey c));
                                ("redirect_uri", json.coerce redirectUrl)]) ctx);
             http.EvDo
               (http.Request.mk "POST" "https://getpocket.com/v3/oauth/request"
                  {[ "Content-Type" := ["application/json; charset=UTF8"] ]}
                  (json.Object [("consumer_key", json.coerce (consumerKey c));
                                ("redirect_uri", json.coerce redirectUrl)]) ctx)] ++ rest /\
    exchanges rest = 0%nat.
Proof.
  intros Hctx. rewrite GetRequestToken_of_doHTTP. cbv zeta. cbn [snd].
  now apply op_log.
Qed.

Lemma GetRequestToken_sends_witness :
  exists rest,
    (http.run (GetRequestToken (answering 200 ∅ "code=ABC") http.Background "")).2 =
      [http.EvNewRequest
         (http.Request.mk "POST" "https://getpocket.com/v3/oauth/request" ∅
            (json.Object [("consumer_key", "key"); ("redirect_uri", "")])
            http.Background);
       http.EvDo
         (http.Request.mk "POST" "https://getpocket.com/v3/oauth/request"
            {[ "Content-Type" := ["application/json; charset=UTF8"] ]}
            (json.Object [("consumer_key", "key"); ("redirect_uri", "")])
            http.Background)] ++ rest /\
    exchanges rest = 0%nat.
Proof.
  apply (GetRequestToken_sends (answering 200 ∅ "code=ABC") http.Background "" []).
  discriminate.
Defined.

(** X16. With a non-empty request token and a context that is not nil,
    [Authorize] performs exactly one exchange: a POST to
    [https://getpocket.com/v3/oauth/authorize] whose JSON has the two
    members [consumer_key], for the client's key, and [code], for the
    request token; each holds its string as the encoder writes it, every
    byte that is not valid UTF-8 replaced by U+FFFD. *)
Theorem Authorize_sends (c : Client) (ctx : Context) (requestToken : string)
  (tr : list http.Event) :
  requestToken <> "" -> ctx <> http.nilContext ->
  exists rest,
    (Authorize c ctx requestToken tr).2 =
      tr ++ [http.EvNewRequest
               (http.Request.mk "POST" "https://getpocket.com/v3/oauth/authorize" ∅
                  (json.Object [("consumer_key", json.coerce (consumerKey c));
                                ("code", json.coerce requestToken)]) ctx);
             http.EvDo
               (http.Request.mk "POST" "https://getpocket.com/v3/oauth/authorize"
                  {[ "Content-Type" := ["application/json; charset=UTF8"] ]}
                  (json.Object [("consumer_key", json.coerce (consumerKey c));
                                ("code", json.coerce requestToken)]) ctx)] ++ rest /\
    exchanges rest = 0%nat.
Proof.
  intros Htoken Hctx. rewrite (Authorize_of_doHTTP _ _ _ _ Htoken). cbv zeta. cbn [snd].
  now apply op_log.
Qed.

Lemma Authorize_sends_witness :
  exists rest,
    (http.run (Authorize (answering 200 ∅ "access_token=X") http.Background "tok")).2 =
      [http.EvNewRequest
         (http.Request.mk "POST" "https://getpocket.com/v3/oauth/authorize" ∅
            (json.Object [("consumer_key", "key"); ("code", "tok")])
            http.Background);
       http.EvDo
         (http.Request.mk "POST" "https://getpocket.com/v3/oauth/authorize"
            {[ "Content-Type" := ["application/json; charset=UTF8"] ]}
            (json.Object [("consumer_key", "key"); ("code", "tok")])
            http.Background)] ++ rest /\
    exchanges rest = 0%nat.
Proof.
  apply (Authorize_sends (answering 200 ∅ "access_token=X") http.Background "tok" []);
    discriminate.
Defined.

(** X17. With a valid input and a context that is not nil, [Add] performs
    exactly one exchange: a POST to [https://getpocket.com/v3/add] whose
    JSON has, in this order, the members [url], [title], [tags] (the tags
    joined with commas), [access_token] and [consumer_key], taken from the
    input and from the client; each holds its string as the encoder writes
    it, every byte that is not valid UTF-8 replaced by U+FFFD. *)
Theorem Add_sends (c : Client) (ctx : Context) (input : AddInput.t)
  (tr : list http.Event) :
  AddInput.URL input <> "" -> AddInput.AccessToken input <> "" ->
  ctx <> http.nilContext ->
  let members :=
    [ ("url", json.coerce (AddInput.URL input));
      ("title", json.coerce (AddInput.Title input));
      ("tags", json.coerce (joinedWith "," (AddInput.Tags input)));
      ("access_token", json.coerce (AddInput.AccessToken input));
      ("consumer_key", json.coerce (consumerKey c)) ] in
  exists rest,
    (Add c ctx input tr).2 =
      tr ++ [http.EvNewRequest
               (http.Request.mk "POST" "https://getpocket.com/v3/add" ∅
                  (json.Object members) ctx);
             http.EvDo
               (http.Request.mk "POST" "https://getpocket.com/v3/add"
                  {[ "Content-Type" := ["application/json; charset=UTF8"] ]}
                  (json.Object members) ctx)] ++ rest /\
    exchanges rest = 0%nat.
Proof.
  intros Hu Ht Hctx members. subst members.
  rewrite (Add_of_doHTTP _ _ _ _ Hu Ht). cbv zeta. cbn [snd].
  apply op_log; [assumption | reflexivity |].
  rewrite <- Join_joined. reflexivity.
Qed.

Lemma Add_sends_witness :
  exists rest,
    (http.run (Add (answering 200 ∅ "") http.Background
                 (AddInput.mk "http://example.link" "example" ["qwe"; "rty"; "123"]
                    "token"))).2 =
      [http.EvNewRequest
         (http.Request.mk "POST" "https://getpocket.com/v3/add" ∅
            (json.Object [("url", "http://example.link"); ("title", "example");
                          ("tags", "qwe,rty,123"); ("access_token", "token");
                          ("consumer_key", "key")]) http.Background);
       http.EvDo
         (http.Request.mk "POST" "https://getpocket.com/v3/add"
            {[ "Content-Type" := ["application/json; charset=UTF8"] ]}
            (json.Object [("url", "http://example.link"); ("title", "example");
                          ("tags", "qwe,rty,123"); ("access_token", "token");
                          ("consumer_key", "key")]) http.Background)] ++ rest /\
    exchanges rest = 0%nat.
Proof.
  apply (Add_sends (answering 200 ∅ "") http.Background
           (AddInput.mk "http://example.link" "example" ["qwe"; "rty"; "123"] "token")
           []); discriminate.
Defined.

(* ===================================================================== *)
(** ** Validation and construction *)
(* ===================================================================== *)

(** X18. [Add] checks the URL before the access token: with an empty URL the
    error reads [required URL is empty] even when the access token is
    empty too; with a URL and an empty access token it reads [access token
    is empty].  In both cases the log is left as it was. *)
Theorem Add_validation_messages (c : Client) (ctx : Context) (input : AddInput.t)
  (tr : list http.Event) :
  (AddInput.URL input = "" ->
     Add c ctx input tr = (Some (errors.New "required URL is empty"), tr)) /\
  (AddInput.URL input <> "" -> AddInput.AccessToken input = "" ->
     Add c ctx input tr = (Some (errors.New "access token is empty"), tr)).
Proof.
  unfold Add, validate. split.
  - intros ->. reflexivity.
  - intros Hu ->. now rewrite (eqb_empty_false _ Hu).
Qed.

Lemma Add_validation_messages_witness :
  http.run (Add (answering 200 ∅ "") http.Background (AddInput.mk "" "t" ["a"] "")) =
    (Some (errors.New "required URL is empty"), []).
Proof.
  apply (proj1 (Add_validation_messages (answering 200 ∅ "") http.Background
                  (AddInput.mk "" "t" ["a"] "") [])).
  reflexivity.
Defined.

(** X19. [NewClient] fails exactly on the empty consumer key, with the text
    [consumer key is empty]; for any other key it returns a client that
    holds the key and a timeout of five seconds, and every request token
    request made through that client carries the key as [consumer_key],
    written as the encoder writes a string (every byte that is not valid
    UTF-8 replaced by U+FFFD). *)
Theorem NewClient_result (transport : http.Request.t -> http.Response.t + error)
  (key : string) :
  (key = "" -> NewClient transport key = inr (errors.New "consumer key is empty")) /\
  (key <> "" ->
     exists c, NewClient transport key = inl c /\
       consumerKey c = key /\
       http.Timeout (client c) = 5000000000 /\
       forall ctx redirectUrl tr, ctx <> http.nilContext ->
         In (http.EvDo
               (http.Request.mk "POST" "https://getpocket.com/v3/oauth/request"
                  {[ "Content-Type" := ["application/json; charset=UTF8"] ]}
                  (json.Object [("consumer_key", json.coerce key);
                                ("redirect_uri", json.coerce redirectUrl)])
                  ctx))
            (GetRequestToken c ctx redirectUrl tr).2).
Proof.
  unfold NewClient. split.
  - intros ->. reflexivity.
  - intros Hkey. rewrite (eqb_empty_false _ Hkey). eexists.
    split; [reflexivity|]. split; [reflexivity|]. split; [reflexivity|].
    intros ctx redirectUrl tr Hctx. rewrite GetRequestToken_of_doHTTP. cbv zeta. cbn [snd].
    match goal with
    | |- In _ (doHTTP ?c _ _ ?b _).2 =>
        destruct (op_log c ctx endpointRequestToken b tr
                    "https://getpocket.com/v3/oauth/request"
                    [("consumer_key", json.coerce key);
                                ("redirect_uri", json.coerce redirectUrl)]
                    Hctx ltac:(reflexivity) ltac:(reflexivity))
          as (rest & -> & _)
    end.
    rewrite !in_app_iff. right. left. right. left. reflexivity.
Qed.

Lemma NewClient_result_witness :
  exists c,
    NewClient (fun _ => inr (errors.errorString "offline")) "key" = inl c /\
    consumerKey c = "key" /\ http.Timeout (client c) = 5000000000.
Proof.
  assert (Hkey : "key" <> "") by discriminate.
  destruct (proj2 (NewClient_result (fun _ => inr (errors.errorString "offline")) "key")
              Hkey) as (c & Hc & Hk & Ht & _).
  exists c. auto.
Defined.

(* ===================================================================== *)
(** ** What flattening and formatting lose *)
(* ===================================================================== *)

(** X20. [generateRequest] copies the URL, the title and the access token,
    stores the consumer key, and flattens the tags: no tag gives the empty
    string, one tag gives that tag, and the flattening cannot be undone,
    since the two tags [a] and [b] give the same request as the single tag
    [a,b]. *)
Theorem generateRequest_flattens (u title token key : string) :
  (forall tags,
     let r := generateRequest (AddInput.mk u title tags token) key in
     addRequest.URL r = u /\ addRequest.Title r = title /\
     addRequest.AccessToken r = token /\ addRequest.ConsumerKey r = key) /\
  addRequest.Tags (generateRequest (AddInput.mk u title [] token) key) = "" /\
  (forall t, addRequest.Tags (generateRequest (AddInput.mk u title [t] token) key) = t) /\
  (forall a b,
     generateRequest (AddInput.mk u title [a; b] token) key =
     generateRequest (AddInput.mk u title [a +:+ "," +:+ b] token) key).
Proof.
  split; [|split; [|split]]; try reflexivity.
  intros tags. cbn. auto.
Qed.

Lemma append_nonempty_r (a b : string) : b <> "" -> a +:+ b <> "".
Proof. destruct a; [now intros | discriminate]. Qed.

(** X21. [GetAuthorizationURL] copies its arguments without escaping them, so
    different arguments can give the same URL: a request token that ends
    in [&redirect_uri=] followed by [b] gives, with redirect URL [r], the
    URL that the token alone gives with the redirect URL [b], followed by
    [&redirect_uri=] and [r]. *)
Theorem GetAuthorizationURL_not_injective (c : Client) (a b r : string) :
  a <> "" -> r <> "" ->
  GetAuthorizationURL c (a +:+ "&redirect_uri=" +:+ b) r =
    GetAuthorizationURL c a (b +:+ "&redirect_uri=" +:+ r) /\
  (GetAuthorizationURL c a (b +:+ "&redirect_uri=" +:+ r)).2 = None.
Proof.
  intros Ha Hr. unfold GetAuthorizationURL.
  rewrite (eqb_empty_false a Ha), (eqb_empty_false r Hr).
  rewrite (eqb_empty_false (a +:+ "&redirect_uri=" +:+ b))
    by now apply append_nonempty.
  rewrite (eqb_empty_false (b +:+ "&redirect_uri=" +:+ r))
    by (apply append_nonempty_r; discriminate).
  cbn [orb snd]. rewrite !Sprintf_authorizeUrl.
  split; [|reflexivity]. now rewrite !append_assoc.
Qed.

Lemma GetAuthorizationURL_not_injective_witness :
  GetAuthorizationURL (answering 200 ∅ "") "tok&redirect_uri=http://evil/" "http://good/" =
    GetAuthorizationURL (answering 200 ∅ "") "tok"
      "http://evil/&redirect_uri=http://good/".
Proof.
  apply (proj1 (GetAuthorizationURL_not_injective (answering 200 ∅ "")
                  "tok" "http://evil/" "http://good/"
                  ltac:(discriminate) ltac:(discriminate))).
Defined.

(* ===================================================================== *)
(** ** From the request token to the token exchange *)
(* ===================================================================== *)

(** X22. A token that [GetRequestToken] returned without error is accepted
    by the next two steps of the flow: [GetAuthorizationURL] builds the
    URL for it with any non-empty redirect URL, and [Authorize] passes its
    validation and sends the token to the server as [code], written as
    the encoder writes a string (every byte that is not valid UTF-8
    replaced by U+FFFD). *)
Theorem request_token_flows (c : Client) (ctx : Context) (redirectUrl token : string)
  (tr : list http.Event) :
  (GetRequestToken c ctx redirectUrl tr).1 = (token, None) ->
  (forall redirectUrl', redirectUrl' <> "" ->
     GetAuthorizationURL c token redirectUrl' =
       ("https://getpocket.com/auth/authorize?request_token=" +:+ token
          +:+ "&redirect_uri=" +:+ redirectUrl', None)) /\
  (forall ctx' tr', ctx' <> http.nilContext ->
     In (http.EvDo
           (http.Request.mk "POST" "https://getpocket.com/v3/oauth/authorize"
              {[ "Content-Type" := ["application/json; charset=UTF8"] ]}
              (json.Object [("consumer_key", json.coerce (consumerKey c));
                            ("code", json.coerce token)]) ctx'))
        (Authorize c ctx' token tr').2).
Proof.
  intros Hok.
  assert (Htoken : token <> "").
  { rewrite GetRequestToken_of_doHTTP in Hok. cbv zeta in Hok. cbn [fst] in Hok.
    destruct (doHTTP _ _ _ _ _) as [[values [e|]] tr0]; cbn [fst snd] in Hok;
      [discriminate|].
    destruct (String.eqb_spec (url.Get values "code") "") as [Hc|Hc]; [discriminate|].
    now injection Hok as <-. }
  split.
  - intros r' Hr'. unfold GetAuthorizationURL.
    rewrite (eqb_empty_false _ Htoken), (eqb_empty_false _ Hr'). cbn [orb].
    now rewrite Sprintf_authorizeUrl.
  - intros ctx' tr' Hctx'. rewrite (Authorize_of_doHTTP _ _ _ _ Htoken). cbv zeta. cbn [snd].
    match goal with
    | |- In _ (doHTTP ?c _ _ ?b _).2 =>
        destruct (op_log c ctx' endpointAuthorize b tr'
                    "https://getpocket.com/v3/oauth/authorize"
                    [("consumer_key", json.coerce (consumerKey c));
                            ("code", json.coerce token)]
                    Hctx' ltac:(reflexivity) ltac:(reflexivity))
          as (rest & -> & _)
    end.
    rewrite !in_app_iff. right. left. right. left. reflexivity.
Qed.

Lemma request_token_flows_witness :
  GetAuthorizationURL (answering 200 ∅ "code=ABC") "ABC" "http://localhost:80/" =
    ("https://getpocket.com/auth/authorize?request_token=" +:+ "ABC"
       +:+ "&redirect_uri=" +:+ "http://localhost:80/", None).
Proof.
  apply (proj1 (request_token_flows (answering 200 ∅ "code=ABC") http.Background
                  "http://localhost:80/" "ABC" [] eq_refl)).
  discriminate.
Defined.

(* ===================================================================== *)
(** ** Bodies that cannot be used *)
(* ===================================================================== *)

(** X6. Under status 200, a body whose reading fails makes [doHTTP] return
    the read error wrapped under [failed to read response body], and a
    body that is read but is not form-encoded makes it return the parse
    error wrapped under [failed to parse response body]; the text is the
    message, a colon and the text of the cause. *)
Theorem doHTTP_body_errors {A} `{json.Struct A} (c : Client) (ctx : Context)
  (endpoint : string) (body : A) (resp : http.Response.t) (tr : list http.Event) :
  received c ctx endpoint body resp ->
  http.Response.StatusCode resp = 200 ->
  (forall e, http.readErr (http.Response.Body resp) = Some e ->
     exists e', (doHTTP c ctx endpoint body tr).1 = (∅, Some e') /\
       errors.Error e' = "failed to read response body: " +:+ errors.Error e) /\
  (forall values e, http.readErr (http.Response.Body resp) = None ->
     url.ParseQuery (http.content (http.Response.Body resp)) = (values, Some e) ->
     exists e', (doHTTP c ctx endpoint body tr).1 = (∅, Some e') /\
       errors.Error e' = "failed to parse response body: " +:+ errors.Error e).
Proof.
  intros Hrecv Hst. rewrite (doHTTP_received _ _ _ _ resp Hrecv). cbv zeta.
  rewrite Hst. cbn [Z.eqb Pos.eqb negb]. split.
  - intros e ->. eexists. split; reflexivity.
  - intros values e -> ->. eexists. split; reflexivity.
Qed.

Lemma doHTTP_body_errors_witness :
  exists e',
    (http.run (doHTTP (answering 200 ∅ "a=1;b=2") http.Background endpointAdd
                 (generateRequest exampleInput "key"))).1 = (∅, Some e') /\
    errors.Error e' =
      "failed to parse response body: invalid semicolon separator in query".
Proof.
  refine (proj2 (doHTTP_body_errors (answering 200 ∅ "a=1;b=2") http.Background
                   endpointAdd (generateRequest exampleInput "key")
                   (http.Response.mk 200 ∅ (http.NewReader "a=1;b=2")) [] _ _)
            ∅ (errors.errorString "invalid semicolon separator in query") _ _);
    try reflexivity.
  split; [discriminate | reflexivity].
Defined.

(** X23. Under status 200 and a form-encoded body, [GetRequestToken] without
    a value under [code] fails with the text [empty request token in API
    response], and [Authorize] without a value under [access_token] fails
    with [empty access token in API response], whatever else the body
    holds; so both fail on the empty body. *)
Theorem missing_field_errors (c : Client) (ctx : Context) (resp : http.Response.t)
  (tr : list http.Event) (values : url.Values) :
  http.Response.StatusCode resp = 200 ->
  http.readErr (http.Response.Body resp) = None ->
  url.ParseQuery (http.content (http.Response.Body resp)) = (values, None) ->
  (forall redirectUrl,
     received c ctx endpointRequestToken
       (requestTokenRequest.mk (consumerKey c) redirectUrl) resp ->
     url.Get values "code" = "" ->
     (GetRequestToken c ctx redirectUrl tr).1 =
       ("", Some (errors.New "empty request token in API response"))) /\
  (forall requestToken, requestToken <> "" ->
     received c ctx endpointAuthorize
       (authorizeRequest.mk (consumerKey c) requestToken) resp ->
     url.Get values "access_token" = "" ->
     (Authorize c ctx requestToken tr).1 =
       (None, Some (errors.New "empty access token in API response"))).
Proof.
  intros Hst Hread Hparse. split.
  - intros redirectUrl Hrecv Hcode.
    rewrite (GetRequestToken_200 _ _ _ _ Hst Hread _ Hrecv), Hparse, Hcode. reflexivity.
  - intros requestToken Htoken Hrecv Haccess.
    rewrite (Authorize_200 _ _ _ _ Hst Hread _ Htoken Hrecv), Hparse, Haccess. reflexivity.
Qed.

Lemma missing_field_errors_witness :
  (http.run (GetRequestToken (answering 200 ∅ "") http.Background "http://r/")).1 =
    ("", Some (errors.New "empty request token in API response")).
Proof.
  refine (proj1 (missing_field_errors (answering 200 ∅ "") http.Background
                   (http.Response.mk 200 ∅ (http.NewReader "")) [] ∅ _ _ _)
            "http://r/" _ _); try reflexivity.
  split; [discriminate | reflexivity].
Defined.

(** A body made of two plain pairs, under equal or different keys. *)
Lemma ParseQuery_pairs (k1 v1 k2 v2 : string) :
  plain k1 = true -> str.Contains k1 "=" = false -> plain v1 = true -> k1 <> "" ->
  plain k2 = true -> str.Contains k2 "=" = false -> plain v2 = true -> k2 <> "" ->
  url.ParseQuery (k1 +:+ String "=" (v1 +:+ String "&" (k2 +:+ String "=" v2))) =
    (url.add (url.add ∅ k1 v1) k2 v2, None).
Proof.
  intros Hk1 Hk1eq Hv1 Hne1 Hk2 Hk2eq Hv2 Hne2. unfold url.ParseQuery.
  rewrite parseQuery_step by now apply append_nonempty.
  pose proof (plain_inv _ Hk1) as (Hk1a & _). pose proof (plain_inv _ Hv1) as (Hv1a & _).
  pose proof (plain_inv _ Hk2) as (Hk2a & _). pose proof (plain_inv _ Hv2) as (Hv2a & _).
  change (k1 +:+ String "=" (v1 +:+ String "&" (k2 +:+ String "=" v2)))
    with (k1 +:+ (String "=" EmptyString) +:+ (v1 +:+ String "&" (k2 +:+ String "=" v2))).
  rewrite <- !append_assoc.
  rewrite Cut_found by (rewrite !Contains_app, Hk1a, Hv1a; reflexivity).
  cbn [fst snd]. rewrite append_assoc.
  change (k1 +:+ String "=" EmptyString +:+ v1) with (k1 +:+ String "=" v1).
  rewrite (parsePair_plain _ _ _ _ Hk1 Hk1eq Hv1). cbn [fst snd].
  rewrite parseQuery_step by now apply append_nonempty.
  rewrite Cut_not_found
    by (rewrite Contains_app, Hk2a; simpl str.Contains; now rewrite Hv2a).
  cbn [fst snd]. rewrite (parsePair_plain _ _ _ _ Hk2 Hk2eq Hv2). cbn [fst snd].
  now rewrite url.parseQuery_equation_1.
Qed.

(** X24. When the body of a 200 response gives [code] twice,
    [GetRequestToken] goes by the first: a non-empty first value is
    returned whatever the second is, and an empty first value makes the
    call fail even when the second is not empty. *)
Theorem GetRequestToken_first_code (c : Client) (ctx : Context) (redirectUrl : string)
  (resp : http.Response.t) (tr : list http.Event) (X Y : string) :
  received c ctx endpointRequestToken
    (requestTokenRequest.mk (consumerKey c) redirectUrl) resp ->
  http.Response.StatusCode resp = 200 ->
  http.readErr (http.Response.Body resp) = None ->
  plain X = true -> plain Y = true ->
  http.content (http.Response.Body resp) = "code=" +:+ X +:+ "&code=" +:+ Y ->
  (GetRequestToken c ctx redirectUrl tr).1 =
    if String.eqb X "" then ("", Some (errors.New "empty request token in API response"))
    else (X, None).
Proof.
  intros Hrecv Hst Hread HX HY Hbody.
  rewrite (GetRequestToken_200 _ _ _ _ Hst Hread _ Hrecv), Hbody.
  change ("code=" +:+ X +:+ "&code=" +:+ Y)
    with ("code" +:+ String "=" (X +:+ String "&" ("code" +:+ String "=" Y))).
  rewrite ParseQuery_pairs by (reflexivity || assumption || discriminate).
  unfold url.add, url.Get. rewrite lookup_empty. cbn [default app].
  rewrite !lookup_insert_eq. cbn [default app]. reflexivity.
Qed.

Lemma GetRequestToken_first_code_witness :
  (http.run (GetRequestToken (answering 200 ∅ "code=&code=late") http.Background
               "http://r/")).1 =
    ("", Some (errors.New "empty request token in API response")).
Proof.
  apply (GetRequestToken_first_code (answering 200 ∅ "code=&code=late") http.Background
           "http://r/" (http.Response.mk 200 ∅ (http.NewReader "code=&code=late")) []
           "" "late"); try reflexivity.
  split; [discriminate | reflexivity].
Defined.

(** X25. [GetRequestToken] makes no use of the redirect URL other than
    sending it: two calls that are answered with the same response return
    the same token or the same error, whatever their redirect URLs, the
    empty one included. *)
Theorem GetRequestToken_ignores_redirect (c : Client) (ctx : Context)
  (redirectUrl1 redirectUrl2 : string) (resp : http.Response.t) (tr : list http.Event) :
  received c ctx endpointRequestToken
    (requestTokenRequest.mk (consumerKey c) redirectUrl1) resp ->
  received c ctx endpointRequestToken
    (requestTokenRequest.mk (consumerKey c) redirectUrl2) resp ->
  (GetRequestToken c ctx redirectUrl1 tr).1 = (GetRequestToken c ctx redirectUrl2 tr).1.
Proof.
  intros Hrecv1 Hrecv2. rewrite !GetRequestToken_of_doHTTP. cbv zeta. cbn [fst].
  rewrite (doHTTP_received _ _ _ _ resp Hrecv1), (doHTTP_received _ _ _ _ resp Hrecv2).
  cbv zeta. destruct (negb _); [reflexivity|].
  destruct (http.readErr _); [reflexivity|].
  destruct (url.ParseQuery _) as [values [e|]]; reflexivity.
Qed.

Lemma GetRequestToken_ignores_redirect_witness :
  (http.run (GetRequestToken (answering 200 ∅ "code=ABC") http.Background "")).1 =
  (http.run (GetRequestToken (answering 200 ∅ "code=ABC") http.Background
               "http://localhost:80/")).1.
Proof.
  apply (GetRequestToken_ignores_redirect (answering 200 ∅ "code=ABC") http.Background
           "" "http://localhost:80/"
           (http.Response.mk 200 ∅ (http.NewReader "code=ABC")) []);
    (split; [discriminate | reflexivity]).
Defined.
